(** * calltracker-hub: the number-assignment protocol and the call history

    A shallow embedding of the operator dashboard
    ([fetchNextNumber], [updateStatus]), of the history panel
    ([fetchHistory], [filteredHistory]) and of the store calls they
    make, followed by the properties of the specification that concern
    them.

    The hosted store is a collaborator of the program.  Its two tables
    are lists of rows; every call to it answers with a response that
    carries either the data or an error, and which of the two it is
    is decided by the world the program runs in, so it is an argument
    of the embedded functions. *)

From Stdlib Require Import List String Ascii Bool ZArith Lia.
From Stdlib Require Import Permutation Sorted.
Import ListNotations.

Local Open Scope string_scope.
Local Open Scope list_scope.

(** ** Data model *)

(** The three outcomes of a call; a column of this type is nullable
    and [None] is the [null] of a number not yet worked. *)
Inductive Outcome : Type := answered | no_answer | rejected.

(** Instants, as the milliseconds since the epoch that a [Date] holds;
    [toISOString] and the store's timestamp columns keep their order. *)
Definition Timestamp : Type := Z.

(** Modelled from the spec: the row type [PhoneNumber] of
    [@/integrations/supabase/types], which is not among the sources.
    The fields are the columns the code reads, filters on, orders by
    and writes. *)
Record PhoneNumber : Type := {
  id : string;
  phone_number : string;
  name : string;
  status : option Outcome;
  assigned_to : option string;
  called_at : option Timestamp;
  created_at : Timestamp
}.

(** A row of the table [phone_calls_history], as [updateStatus]
    inserts it; [row_id] is the key the store generates. *)
Record HistoryRow : Type := {
  row_id : string;
  phone_number_id : string;
  operator_id : string;
  row_status : option Outcome;
  row_called_at : Timestamp
}.

(** The store.  Each table lists its rows in the order in which the
    store hands them out when a query asks for no ordering. *)
Record Db : Type := {
  phone_numbers : list PhoneNumber;
  phone_calls_history : list HistoryRow
}.

(** ** Responses, errors and the monad of the [try] bodies *)

(** An error is known to the program by its [message] only. *)
Definition Error : Type := string.

(** [{ data, error }]: the answer of one store call. *)
Definition Response (A : Type) : Type := (Error + A)%type.

(** A computation that reads and writes the store and either returns
    or throws. *)
Definition Async (A : Type) : Type := Db -> Db * (Error + A).

Definition ret {A : Type} (a : A) : Async A := fun db => (db, inr a).

Definition throw {A : Type} (e : Error) : Async A := fun db => (db, inl e).

Definition bind {A B : Type} (c : Async A) (k : A -> Async B) : Async B :=
  fun db =>
    match c db with
    | (db', inr a) => k a db'
    | (db', inl e) => (db', inl e)
    end.

Declare Scope async_scope.
Delimit Scope async_scope with async.
Notation "x <- c ;; k" := (bind c (fun x => k))
  (at level 61, c at next level, right associativity) : async_scope.
Notation "c ;; k" := (bind c (fun _ => k))
  (at level 61, right associativity) : async_scope.
Local Open Scope async_scope.

(** [const { data, error } = await q; if (error) throw error;] *)
Definition await {A : Type} (q : Db -> Db * Response A) : Async A := q.

(** ** Store calls

    A call whose response is an error has not been applied. *)

Definition is_null {A : Type} (o : option A) : bool :=
  match o with None => true | Some _ => false end.

(** Column equality of a filter: a [null] column equals nothing. *)
Definition col_eq (o : option string) (v : string) : bool :=
  match o with Some x => String.eqb x v | None => false end.

(** [.from("phone_numbers").select("*")] with a filter and [.limit(n)]. *)
Definition select_phone_numbers (fault : option Error)
    (p : PhoneNumber -> bool) (n : nat) (db : Db)
  : Db * Response (list PhoneNumber) :=
  match fault with
  | Some e => (db, inl e)
  | None => (db, inr (firstn n (filter p (phone_numbers db))))
  end.

(** [.from("phone_numbers").update(patch).eq("id", i)].  The row is
    rewritten where it stands in the list; a store may hand a
    rewritten row out at another place, so a property that is to hold
    of the program is stated on the rows a table holds, or for every
    order of them, not on their places. *)
Definition update_phone_numbers (fault : option Error)
    (patch : PhoneNumber -> PhoneNumber) (i : string) (db : Db)
  : Db * Response unit :=
  match fault with
  | Some e => (db, inl e)
  | None =>
      ({| phone_numbers :=
            map (fun r => if String.eqb (id r) i then patch r else r)
                (phone_numbers db);
          phone_calls_history := phone_calls_history db |}, inr tt)
  end.

(** [.from("phone_numbers").delete().eq("id", i)] *)
Definition delete_phone_numbers (fault : option Error) (i : string) (db : Db)
  : Db * Response unit :=
  match fault with
  | Some e => (db, inl e)
  | None =>
      ({| phone_numbers :=
            filter (fun r => negb (String.eqb (id r) i)) (phone_numbers db);
          phone_calls_history := phone_calls_history db |}, inr tt)
  end.

(** [.from("phone_calls_history").insert(row)].  A store that refuses
    a row (one that refers to no phone number, under a foreign key)
    answers with an error, the case [fault = Some e]. *)
Definition insert_phone_calls_history (fault : option Error)
    (row : HistoryRow) (db : Db) : Db * Response unit :=
  match fault with
  | Some e => (db, inl e)
  | None =>
      ({| phone_numbers := phone_numbers db;
          phone_calls_history := phone_calls_history db ++ [row] |}, inr tt)
  end.

(** The patches of the three updates. *)
Definition set_assigned_to (a : option string) (r : PhoneNumber) : PhoneNumber :=
  {| id := id r; phone_number := phone_number r; name := name r;
     status := status r; assigned_to := a; called_at := called_at r;
     created_at := created_at r |}.

Definition set_outcome (s : option Outcome) (t : Timestamp) (r : PhoneNumber)
  : PhoneNumber :=
  {| id := id r; phone_number := phone_number r; name := name r;
     status := s; assigned_to := None; called_at := Some t;
     created_at := created_at r |}.

Definition set_name (n : string) (r : PhoneNumber) : PhoneNumber :=
  {| id := id r; phone_number := phone_number r; name := n;
     status := status r; assigned_to := assigned_to r;
     called_at := called_at r; created_at := created_at r |}.

(** ** The dashboard *)

Record Toast : Type := {
  title : option string;
  description : string;
  variant : option string
}.

(** The state of the component: [currentNumber], the [userId] its
    closures see, and the toasts shown so far. *)
Record Dashboard : Type := {
  currentNumber : option PhoneNumber;
  userId : option string;
  toasts : list Toast
}.

Definition setCurrentNumber (n : option PhoneNumber) (st : Dashboard) : Dashboard :=
  {| currentNumber := n; userId := userId st; toasts := toasts st |}.

Definition toast (t : Toast) (st : Dashboard) : Dashboard :=
  {| currentNumber := currentNumber st; userId := userId st;
     toasts := toasts st ++ [t] |}.

(** [toast({ title: "Error", description: error.message,
    variant: "destructive" })] *)
Definition error_toast (e : Error) : Toast :=
  {| title := Some "Error"; description := e; variant := Some "destructive" |}.

Definition success_toast : Toast :=
  {| title := None; description := "Call status updated successfully";
     variant := None |}.

(** [if (userId)]: a [string | null] is truthy when it is a string
    other than the empty one. *)
Definition truthy (u : option string) : bool :=
  match u with
  | Some s => negb (String.eqb s "")
  | None => false
  end.

(** The filter of [fetchNextNumber]:
    [.is('status', null)], then either
    [.or(`assigned_to.is.null,assigned_to.eq.${userId}`)] or
    [.is('assigned_to', null)].  An operator id is the key the identity
    provider issues; the [or] filter is read with that id as its
    operand. *)
Definition next_number_query (u : option string) (r : PhoneNumber) : bool :=
  is_null (status r) &&
  (if truthy u then
     is_null (assigned_to r) ||
     match u with Some x => col_eq (assigned_to r) x | None => false end
   else is_null (assigned_to r)).

(** What the world decides during one run of [fetchNextNumber]. *)
Record FetchWorld : Type := {
  select_fault : option Error;
  assign_fault : option Error
}.

(** The [try] block of [fetchNextNumber]; its value is the argument
    of [setCurrentNumber]. *)
Definition fetchNextNumber_try (w : FetchWorld) (u : option string)
  : Async (option PhoneNumber) :=
  data <- await (select_phone_numbers (select_fault w) (next_number_query u) 1) ;;
  match data with
  | selectedNumber :: _ =>
      (if truthy u then
         await (update_phone_numbers (assign_fault w) (set_assigned_to u)
                                     (id selectedNumber))
       else ret tt) ;;
      ret (Some selectedNumber)
  | [] => ret None
  end.

Definition fetchNextNumber (w : FetchWorld) (st : Dashboard) (db : Db)
  : Db * Dashboard :=
  match fetchNextNumber_try w (userId st) db with
  | (db', inr n) => (db', setCurrentNumber n st)
  | (db', inl e) => (db', toast (error_toast e) st)
  end.

(** What the world decides during one run of [updateStatus]: the two
    responses, the two readings of the clock, the key of the new
    history row, and the run of [fetchNextNumber] that follows. *)
Record UpdateWorld : Type := {
  status_fault : option Error;
  history_fault : option Error;
  now_status : Timestamp;
  now_history : Timestamp;
  history_id : string;
  next_fetch : FetchWorld
}.

Definition updateStatus_try (w : UpdateWorld) (cur : PhoneNumber)
    (u : string) (s : option Outcome) : Async unit :=
  await (update_phone_numbers (status_fault w)
           (set_outcome s (now_status w)) (id cur)) ;;
  await (insert_phone_calls_history (history_fault w)
           {| row_id := history_id w;
              phone_number_id := id cur;
              operator_id := u;
              row_status := s;
              row_called_at := now_history w |}) ;;
  ret tt.

Definition updateStatus (w : UpdateWorld) (s : option Outcome)
    (st : Dashboard) (db : Db) : Db * Dashboard :=
  match currentNumber st, userId st with
  | Some cur, Some u =>
      if truthy (Some u) then
        match updateStatus_try w cur u s db with
        | (db', inr _) =>
            fetchNextNumber (next_fetch w) (toast success_toast st) db'
        | (db', inl e) => (db', toast (error_toast e) st)
        end
      else (db, st)
  | _, _ => (db, st)
  end.

(** ** The history panel *)

(** The embedded resource [phone_numbers ( phone_number, name )]. *)
Record PhoneInfo : Type := {
  info_phone_number : string;
  info_name : string
}.

(** A row of the history query, type [PhoneCallHistory]; the store
    embeds the phone number the row refers to, or [null] when it finds
    none. *)
Record PhoneCallHistory : Type := {
  pch_id : string;
  pch_status : option Outcome;
  pch_called_at : Timestamp;
  pch_phone_numbers : option PhoneInfo
}.

(** Type [CallHistoryEntry], the rows the panel shows. *)
Record CallHistoryEntry : Type := {
  entry_id : string;
  entry_phone_number : string;
  entry_name : string;
  entry_status : option Outcome;
  entry_called_at : Timestamp
}.

(** [.order('called_at', { ascending: false })] *)
Fixpoint insert_called_at_desc (h : HistoryRow) (l : list HistoryRow)
  : list HistoryRow :=
  match l with
  | [] => [h]
  | x :: l' =>
      if (row_called_at h <? row_called_at x)%Z
      then x :: insert_called_at_desc h l'
      else h :: x :: l'
  end.

Definition order_called_at_desc (l : list HistoryRow) : list HistoryRow :=
  fold_right insert_called_at_desc [] l.

(** The embedding is resolved through the reference [phone_number_id]
    against the table as it is when the query runs. *)
Definition embed_phone_numbers (db : Db) (h : HistoryRow) : PhoneCallHistory :=
  {| pch_id := row_id h;
     pch_status := row_status h;
     pch_called_at := row_called_at h;
     pch_phone_numbers :=
       match find (fun r => String.eqb (id r) (phone_number_id h))
                  (phone_numbers db) with
       | Some r => Some {| info_phone_number := phone_number r;
                           info_name := name r |}
       | None => None
       end |}.

(** [.from('phone_calls_history').select(...).eq('operator_id', u)
    .order('called_at', { ascending: false })] *)
Definition select_phone_calls_history (fault : option Error) (u : string)
    (db : Db) : Db * Response (list PhoneCallHistory) :=
  match fault with
  | Some e => (db, inl e)
  | None =>
      (db, inr (map (embed_phone_numbers db)
                  (order_called_at_desc
                     (filter (fun h => String.eqb (operator_id h) u)
                             (phone_calls_history db)))))
  end.

(** Reading a property of [null] throws a [TypeError]. *)
Definition TypeError_null : Error :=
  "Cannot read properties of null (reading 'phone_number')".

(** The callback of [data.map]. *)
Definition format_entry (entry : PhoneCallHistory) : Error + CallHistoryEntry :=
  match pch_phone_numbers entry with
  | Some info =>
      inr {| entry_id := pch_id entry;
             entry_phone_number := info_phone_number info;
             entry_name := info_name info;
             entry_status := pch_status entry;
             entry_called_at := pch_called_at entry |}
  | None => inl TypeError_null
  end.

Fixpoint map_format (data : list PhoneCallHistory)
  : Error + list CallHistoryEntry :=
  match data with
  | [] => inr []
  | entry :: rest =>
      match format_entry entry with
      | inl e => inl e
      | inr x =>
          match map_format rest with
          | inl e => inl e
          | inr xs => inr (x :: xs)
          end
      end
  end.

(** The [try] block of [fetchHistory]; its value is the argument of
    [setHistory]. *)
Definition fetchHistory_try (fault : option Error) (u : string)
  : Async (list CallHistoryEntry) :=
  data <- await (select_phone_calls_history fault u) ;;
  match map_format data with
  | inr formattedData => ret formattedData
  | inl e => throw e
  end.

(** The state of the panel. *)
Record CallHistory : Type := {
  history : list CallHistoryEntry;
  loading : bool;
  searchQuery : string
}.

(** [fetchHistory]: on success [setHistory]; an error is only logged;
    [setLoading(false)] in either case. *)
Definition fetchHistory (fault : option Error) (u : string)
    (st : CallHistory) (db : Db) : CallHistory :=
  match snd (fetchHistory_try fault u db) with
  | inr formattedData =>
      {| history := formattedData; loading := false;
         searchQuery := searchQuery st |}
  | inl _ =>
      {| history := history st; loading := false;
         searchQuery := searchQuery st |}
  end.

(** [String.prototype.includes] *)
Fixpoint includes (s q : string) : bool :=
  prefix q s ||
  match s with
  | EmptyString => false
  | String _ s' => includes s' q
  end.

Section Search.

(** [String.prototype.toLowerCase], a builtin of the language. *)
Variable toLowerCase : string -> string.

(** The predicate of [history.filter]. *)
Definition search_match (q : string) (entry : CallHistoryEntry) : bool :=
  includes (toLowerCase (entry_name entry)) (toLowerCase q) ||
  includes (entry_phone_number entry) q.

Definition filteredHistory (st : CallHistory) : list CallHistoryEntry :=
  filter (search_match (searchQuery st)) (history st).

End Search.

(** [toLowerCase] on strings of ASCII characters. *)
Definition ascii_lower (c : ascii) : ascii :=
  let n := nat_of_ascii c in
  if (65 <=? n)%nat && (n <=? 90)%nat then ascii_of_nat (n + 32) else c.

Fixpoint ascii_toLowerCase (s : string) : string :=
  match s with
  | EmptyString => EmptyString
  | String c s' => String (ascii_lower c) (ascii_toLowerCase s')
  end.

(** ** The first load of the dashboard *)

(** The rest of the state of the dashboard page: [loading], [isAdmin]
    and the route [navigate] last went to. *)
Record Page : Type := {
  view : Dashboard;
  page_loading : bool;
  page_isAdmin : bool;
  route : option string
}.

(** The initial values of the [useState] calls. *)
Definition first_render : Page :=
  {| view := {| currentNumber := None; userId := None; toasts := [] |};
     page_loading := true;
     page_isAdmin := false;
     route := None |}.

(** What the world decides during [initializeDashboard]: the session
    (the id of its user), the [is_admin] of the profile when the
    profile query found one, and the run of [fetchNextNumber]. *)
Record LoadWorld : Type := {
  session : option string;
  profile_is_admin : option bool;
  first_fetch : FetchWorld
}.

(** [initializeDashboard], run by the effect of a render.  The
    [fetchNextNumber] it awaits is the closure of that render and
    reads that render's [userId]; [setUserId] shows in later renders
    only.  None of the calls of its [try] block throws
    ([fetchNextNumber] catches its own errors). *)
Definition initializeDashboard (w : LoadWorld) (render : Page) (db : Db)
  : Db * Page :=
  match session w with
  | None =>
      (db, {| view := view render; page_loading := page_loading render;
              page_isAdmin := page_isAdmin render; route := Some "/auth" |})
  | Some uid =>
      let (db', v) := fetchNextNumber (first_fetch w) (view render) db in
      (db', {| view := {| currentNumber := currentNumber v;
                          userId := Some uid;
                          toasts := toasts v |};
               page_loading := false;
               page_isAdmin :=
                 match profile_is_admin w with Some b => b | None => false end;
               route := route render |})
  end.

(** ** The listing pages *)

(** [.order("created_at")] *)
Fixpoint insert_created_at (r : PhoneNumber) (l : list PhoneNumber)
  : list PhoneNumber :=
  match l with
  | [] => [r]
  | x :: l' =>
      if (created_at r <=? created_at x)%Z
      then r :: x :: l'
      else x :: insert_created_at r l'
  end.

Definition order_created_at (l : list PhoneNumber) : list PhoneNumber :=
  fold_right insert_created_at [] l.

(** [.from("phone_numbers").select("*").order("created_at")] *)
Definition select_all_phone_numbers (fault : option Error) (db : Db)
  : Db * Response (list PhoneNumber) :=
  match fault with
  | Some e => (db, inl e)
  | None => (db, inr (order_created_at (phone_numbers db)))
  end.

(** [.from("phone_numbers").insert([row])]; [row] is the row as the
    store keeps it, the columns the program does not give filled in
    by the store. *)
Definition insert_phone_numbers (fault : option Error) (row : PhoneNumber)
    (db : Db) : Db * Response unit :=
  match fault with
  | Some e => (db, inl e)
  | None =>
      ({| phone_numbers := phone_numbers db ++ [row];
          phone_calls_history := phone_calls_history db |}, inr tt)
  end.

Definition set_phone_number (n : string) (r : PhoneNumber) : PhoneNumber :=
  {| id := id r; phone_number := n; name := name r;
     status := status r; assigned_to := assigned_to r;
     called_at := called_at r; created_at := created_at r |}.

(** [{ ...phone, status }] *)
Definition set_status (s : option Outcome) (r : PhoneNumber) : PhoneNumber :=
  {| id := id r; phone_number := phone_number r; name := name r;
     status := s; assigned_to := assigned_to r;
     called_at := called_at r; created_at := created_at r |}.

(** [update({ status, called_at: new Date().toISOString() })] *)
Definition set_status_called_at (s : option Outcome) (t : Timestamp)
    (r : PhoneNumber) : PhoneNumber :=
  {| id := id r; phone_number := phone_number r; name := name r;
     status := s; assigned_to := assigned_to r;
     called_at := Some t; created_at := created_at r |}.

Definition plain_toast (d : string) : Toast :=
  {| title := None; description := d; variant := None |}.

(** The admin page. *)
Module Admin.

Record State : Type := {
  phoneNumbers : list PhoneNumber;
  newNumber : string;
  loading : bool;
  toasts : list Toast
}.

Definition toast (t : Toast) (st : State) : State :=
  {| phoneNumbers := phoneNumbers st; newNumber := newNumber st;
     loading := loading st; toasts := toasts st ++ [t] |}.

(** [fetchPhoneNumbers]: [setPhoneNumbers(data || [])], or the error
    toast; [setLoading(false)] in either case. *)
Definition fetchPhoneNumbers (fault : option Error) (st : State) (db : Db)
  : State :=
  match snd (await (select_all_phone_numbers fault) db) with
  | inr data =>
      {| phoneNumbers := data; newNumber := newNumber st;
         loading := false; toasts := toasts st |}
  | inl e =>
      {| phoneNumbers := phoneNumbers st; newNumber := newNumber st;
         loading := false; toasts := toasts st ++ [error_toast e] |}
  end.

(** What the world decides during [addPhoneNumber]: the response of
    the insert, the row the store makes of it, and the response of
    the listing that follows. *)
Record AddWorld : Type := {
  insert_fault : option Error;
  stored : PhoneNumber;
  list_fault : option Error
}.

Section Add.

(** [String.prototype.trim], a builtin of the language. *)
Variable trim : string -> string.

(** [addPhoneNumber]; an empty string is falsy. *)
Definition addPhoneNumber (w : AddWorld) (st : State) (db : Db)
  : Db * State :=
  if String.eqb (trim (newNumber st)) "" then (db, st)
  else
    match await (insert_phone_numbers (insert_fault w)
                   (set_phone_number (trim (newNumber st)) (stored w))) db with
    | (db', inr _) =>
        (db',
         fetchPhoneNumbers (list_fault w)
           {| phoneNumbers := phoneNumbers st; newNumber := "";
              loading := loading st;
              toasts := toasts st ++
                        [plain_toast "Phone number added successfully"] |}
           db')
    | (db', inl e) => (db', toast (error_toast e) st)
    end.

End Add.

(** [deletePhoneNumber] *)
Definition deletePhoneNumber (fault : option Error) (i : string)
    (st : State) (db : Db) : Db * State :=
  match await (delete_phone_numbers fault i) db with
  | (db', inr _) =>
      (db',
       {| phoneNumbers :=
            filter (fun phone => negb (String.eqb (id phone) i))
                   (phoneNumbers st);
          newNumber := newNumber st; loading := loading st;
          toasts := toasts st ++
                    [plain_toast "Phone number deleted successfully"] |})
  | (db', inl e) => (db', toast (error_toast e) st)
  end.

End Admin.

(** The dashboard that lists every number with its buttons. *)
Module ListDashboard.

Record State : Type := {
  phoneNumbers : list PhoneNumber;
  loading : bool;
  toasts : list Toast
}.

Definition toast (t : Toast) (st : State) : State :=
  {| phoneNumbers := phoneNumbers st; loading := loading st;
     toasts := toasts st ++ [t] |}.

Definition fetchPhoneNumbers (fault : option Error) (st : State) (db : Db)
  : State :=
  match snd (await (select_all_phone_numbers fault) db) with
  | inr data =>
      {| phoneNumbers := data; loading := false; toasts := toasts st |}
  | inl e =>
      {| phoneNumbers := phoneNumbers st; loading := false;
         toasts := toasts st ++ [error_toast e] |}
  end.

(** [updateStatus(id, status)]: one update of the store, then the
    same status on the rows of the list. *)
Definition updateStatus (fault : option Error) (now : Timestamp)
    (i : string) (s : option Outcome) (st : State) (db : Db) : Db * State :=
  match await (update_phone_numbers fault (set_status_called_at s now) i) db with
  | (db', inr _) =>
      (db',
       {| phoneNumbers :=
            map (fun phone => if String.eqb (id phone) i
                              then set_status s phone else phone)
                (phoneNumbers st);
          loading := loading st;
          toasts := toasts st ++
                    [plain_toast "Call status updated successfully"] |})
  | (db', inl e) => (db', toast (error_toast e) st)
  end.

End ListDashboard.

(** ** Notions the properties are stated with *)

(** Newest first, on history rows. *)
Definition newer_first (a b : HistoryRow) : Prop :=
  (row_called_at b <= row_called_at a)%Z.

(** Oldest first, on phone numbers. *)
Definition older_first (a b : PhoneNumber) : Prop :=
  (created_at a <= created_at b)%Z.

(** An entry of the panel is made of a history row and of the phone
    number the row's reference finds in the table. *)
Definition entry_of (db : Db) (h : HistoryRow) (e : CallHistoryEntry) : Prop :=
  exists r,
    find (fun r => String.eqb (id r) (phone_number_id h)) (phone_numbers db)
      = Some r /\
    e = {| entry_id := row_id h;
           entry_phone_number := phone_number r;
           entry_name := name r;
           entry_status := row_status h;
           entry_called_at := row_called_at h |}.

(** The writes of the dashboard leave the key, the number and the
    name of a row as they are. *)
Definition keeps_display_info (f : PhoneNumber -> PhoneNumber) : Prop :=
  forall r, id (f r) = id r /\ phone_number (f r) = phone_number r /\
            name (f r) = name r.

(** [q] occurs in [s]: the substring relation the search is specified
    with. *)
Definition occurs_in (q s : string) : Prop :=
  exists pre post, s = (pre ++ q ++ post)%string.

(** A number is worked in a store when every row with its key has a
    status. *)
Definition worked (k : string) (db : Db) : Prop :=
  forall r, In r (phone_numbers db) -> id r = k -> status r <> None.

(** One thing the pages do to the store with their buttons, in any
    world, or one reordering of the table by the store. *)
Inductive store_step : Db -> Db -> Prop :=
| step_fetch (w : FetchWorld) (st : Dashboard) (db : Db) :
    store_step db (fst (fetchNextNumber w st db))
| step_load (w : LoadWorld) (render : Page) (db : Db) :
    store_step db (fst (initializeDashboard w render db))
| step_complete (w : UpdateWorld) (outcome : Outcome) (st : Dashboard)
    (db : Db) :
    store_step db (fst (updateStatus w (Some outcome) st db))
| step_list_update (fault : option Error) (now : Timestamp) (i : string)
    (outcome : Outcome) (st : ListDashboard.State) (db : Db) :
    store_step db
      (fst (ListDashboard.updateStatus fault now i (Some outcome) st db))
| step_delete (fault : option Error) (i : string) (st : Admin.State)
    (db : Db) :
    store_step db (fst (Admin.deletePhoneNumber fault i st db))
| step_reorder (db : Db) (tbl : list PhoneNumber) :
    Permutation tbl (phone_numbers db) ->
    store_step db {| phone_numbers := tbl;
                     phone_calls_history := phone_calls_history db |}.

(** Any number of such steps. *)
Inductive later_store : Db -> Db -> Prop :=
| later_now (db : Db) : later_store db db
| later_step (db db1 db2 : Db) :
    later_store db db1 -> store_step db1 db2 -> later_store db db2.

(** ** Sample data *)

Definition alice : PhoneNumber :=
  {| id := "1"; phone_number := "+15551234"; name := "Alice";
     status := None; assigned_to := None; called_at := None;
     created_at := 200%Z |}.

Definition bob : PhoneNumber :=
  {| id := "2"; phone_number := "+15555678"; name := "Bob";
     status := None; assigned_to := None; called_at := None;
     created_at := 100%Z |}.

Definition carol : PhoneNumber :=
  {| id := "3"; phone_number := "+15559012"; name := "Carol";
     status := Some answered; assigned_to := None; called_at := Some 150%Z;
     created_at := 50%Z |}.

Definition dave : PhoneNumber :=
  {| id := "4"; phone_number := "+15553456"; name := "Dave";
     status := None; assigned_to := Some "opB"; called_at := None;
     created_at := 10%Z |}.

Definition pool : Db :=
  {| phone_numbers := [carol; dave; alice; bob]; phone_calls_history := [] |}.

(** [pool] once [alice] is claimed by the operator [opA]. *)
Definition pool_claimed : Db :=
  {| phone_numbers := [carol; dave; set_assigned_to (Some "opA") alice; bob];
     phone_calls_history := [] |}.

Definition calm : FetchWorld :=
  {| select_fault := None; assign_fault := None |}.

(** The dashboard of [opA] with [alice] as the current number. *)
Definition working : Dashboard :=
  {| currentNumber := Some alice; userId := Some "opA"; toasts := [] |}.

Definition steady : UpdateWorld :=
  {| status_fault := None; history_fault := None;
     now_status := 1000%Z; now_history := 1001%Z;
     history_id := "h1"; next_fetch := calm |}.

(** A world in which the insert into the history table fails. *)
Definition history_down : UpdateWorld :=
  {| status_fault := None; history_fault := Some "insert failed";
     now_status := 1000%Z; now_history := 1001%Z;
     history_id := "h1"; next_fetch := calm |}.

(** A history table: two calls of [opA] and one of [opB]. *)
Definition call_log : Db :=
  {| phone_numbers := [carol; dave; alice; bob];
     phone_calls_history :=
       [ {| row_id := "h1"; phone_number_id := "3"; operator_id := "opA";
            row_status := Some answered; row_called_at := 150%Z |};
         {| row_id := "h2"; phone_number_id := "1"; operator_id := "opB";
            row_status := Some no_answer; row_called_at := 160%Z |};
         {| row_id := "h3"; phone_number_id := "2"; operator_id := "opA";
            row_status := Some rejected; row_called_at := 170%Z |} ] |}.

Definition call_log_of_opA : list CallHistoryEntry :=
  [ {| entry_id := "h3"; entry_phone_number := "+15555678";
       entry_name := "Bob"; entry_status := Some rejected;
       entry_called_at := 170%Z |};
    {| entry_id := "h1"; entry_phone_number := "+15559012";
       entry_name := "Carol"; entry_status := Some answered;
       entry_called_at := 150%Z |} ].

(** Two entries for the search: a name in capitals, and a number
    spelled with letters. *)
Definition entry_ALICE : CallHistoryEntry :=
  {| entry_id := "h1"; entry_phone_number := "+15551234";
     entry_name := "ALICE"; entry_status := Some answered;
     entry_called_at := 150%Z |}.

Definition entry_vanity : CallHistoryEntry :=
  {| entry_id := "h2"; entry_phone_number := "555-CALL";
     entry_name := "Bob"; entry_status := Some no_answer;
     entry_called_at := 160%Z |}.

(** A table whose only open number is claimed by [opA]. *)
Definition pool_taken : Db :=
  {| phone_numbers := [carol; set_assigned_to (Some "opA") alice];
     phone_calls_history := [] |}.

(** The dashboard of [opB], showing [alice] from an earlier load. *)
Definition waiting : Dashboard :=
  {| currentNumber := Some alice; userId := Some "opB"; toasts := [] |}.

(** A world in which the assignment write fails. *)
Definition assign_down : FetchWorld :=
  {| select_fault := None; assign_fault := Some "timeout" |}.

(** The dashboard of [opA] still showing a number that is no longer
    in the table. *)
Definition ghost : PhoneNumber :=
  {| id := "9"; phone_number := "+15550000"; name := "Gone";
     status := None; assigned_to := Some "opA"; called_at := None;
     created_at := 5%Z |}.

Definition stale : Dashboard :=
  {| currentNumber := Some ghost; userId := Some "opA"; toasts := [] |}.

(** [call_log] with a row of [opA] whose phone number is gone. *)
Definition broken_log : Db :=
  {| phone_numbers := [carol; dave; alice; bob];
     phone_calls_history :=
       phone_calls_history call_log ++
       [ {| row_id := "h4"; phone_number_id := "9"; operator_id := "opA";
            row_status := Some answered; row_called_at := 180%Z |} ] |}.

(** A panel that shows the two calls of [opA]. *)
Definition panel : CallHistory :=
  {| history := call_log_of_opA; loading := true; searchQuery := "" |}.

(** The session of [opA], who is no admin, in a world without faults. *)
Definition login_opA : LoadWorld :=
  {| session := Some "opA"; profile_is_admin := Some false;
     first_fetch := calm |}.

(** An admin page that lists [pool] and has a number typed in. *)
Definition admin_page : Admin.State :=
  {| Admin.phoneNumbers := [dave; carol; bob; alice];
     Admin.newNumber := " +15557777 ";
     Admin.loading := false;
     Admin.toasts := [] |}.

(** The row the store makes of an insert. *)
Definition fresh_row : PhoneNumber :=
  {| id := "5"; phone_number := ""; name := "";
     status := None; assigned_to := None; called_at := None;
     created_at := 300%Z |}.

Definition add_calm : Admin.AddWorld :=
  {| Admin.insert_fault := None; Admin.stored := fresh_row;
     Admin.list_fault := None |}.

(** A [trim] for the sample: it drops the spaces at both ends. *)
Fixpoint drop_spaces (s : string) : string :=
  match s with
  | String " "%char s' => drop_spaces s'
  | _ => s
  end.

Fixpoint string_rev (s : string) : string :=
  match s with
  | EmptyString => EmptyString
  | String c s' => (string_rev s' ++ String c EmptyString)%string
  end.

Definition trim_spaces (s : string) : string :=
  string_rev (drop_spaces (string_rev (drop_spaces s))).

(** A list dashboard that shows [pool]. *)
Definition list_page : ListDashboard.State :=
  {| ListDashboard.phoneNumbers := [dave; carol; bob; alice];
     ListDashboard.loading := false;
     ListDashboard.toasts := [] |}.

(** * Properties *)

(** ** The store calls and the monad *)

Lemma truthy_Some (u : string) : truthy (Some u) = true <-> u <> "".
Proof.
  unfold truthy. destruct (String.eqb_spec u ""); simpl; split; intros H;
    congruence.
Qed.

Lemma is_null_true {A : Type} (o : option A) : is_null o = true <-> o = None.
Proof. destruct o; simpl; split; congruence. Qed.

Lemma col_eq_true (o : option string) (v : string) :
  col_eq o v = true <-> o = Some v.
Proof.
  destruct o as [x|]; simpl.
  - destruct (String.eqb_spec x v); split; congruence.
  - split; congruence.
Qed.

(** What the query of [fetchNextNumber] selects, in words of the
    columns. *)
Lemma next_number_query_true (u : option string) (r : PhoneNumber) :
  next_number_query u r = true <->
  status r = None /\
  (assigned_to r = None \/ (truthy u = true /\ assigned_to r = u)).
Proof.
  unfold next_number_query. rewrite andb_true_iff, is_null_true.
  destruct (truthy u) eqn:Hu.
  - rewrite orb_true_iff, is_null_true.
    destruct u as [x|]; [rewrite col_eq_true | discriminate Hu].
    intuition congruence.
  - rewrite is_null_true. intuition congruence.
Qed.

(** The rows an update by key leaves and the row it writes. *)
Lemma update_by_id_In (patch : PhoneNumber -> PhoneNumber) (i : string)
    (l : list PhoneNumber) (r : PhoneNumber) :
  In r (map (fun x => if String.eqb (id x) i then patch x else x) l) <->
  exists x, In x l /\ r = if String.eqb (id x) i then patch x else x.
Proof.
  rewrite in_map_iff. split; intros [x [H1 H2]]; exists x; intuition congruence.
Qed.

(** [fetchNextNumber], case by case. *)
Lemma fetchNextNumber_try_eq (w : FetchWorld) (u : option string) (db : Db) :
  fetchNextNumber_try w u db =
  match select_fault w with
  | Some e => (db, inl e)
  | None =>
      match filter (next_number_query u) (phone_numbers db) with
      | [] => (db, inr None)
      | selectedNumber :: _ =>
          if truthy u then
            match assign_fault w with
            | Some e => (db, inl e)
            | None =>
                ({| phone_numbers :=
                      map (fun r => if String.eqb (id r) (id selectedNumber)
                                    then set_assigned_to u r else r)
                          (phone_numbers db);
                    phone_calls_history := phone_calls_history db |},
                 inr (Some selectedNumber))
            end
          else (db, inr (Some selectedNumber))
      end
  end.
Proof.
  unfold fetchNextNumber_try, bind, await, select_phone_numbers,
    update_phone_numbers, ret.
  destruct (select_fault w); [reflexivity|].
  destruct (filter (next_number_query u) (phone_numbers db)) as [|x l];
    [reflexivity|].
  simpl. destruct (truthy u); [|reflexivity].
  destruct (assign_fault w); reflexivity.
Qed.

(** A number is returned only as the head of the selection. *)
Lemma fetchNextNumber_try_returns (w : FetchWorld) (u : option string)
    (db db' : Db) (n : PhoneNumber) :
  fetchNextNumber_try w u db = (db', inr (Some n)) ->
  exists rest, filter (next_number_query u) (phone_numbers db) = n :: rest.
Proof.
  rewrite fetchNextNumber_try_eq.
  destruct (select_fault w); [discriminate|].
  destruct (filter (next_number_query u) (phone_numbers db)) as [|x l];
    [discriminate|].
  destruct (truthy u); [destruct (assign_fault w)|]; intros H;
    inversion H; subst; eauto.
Qed.

Lemma filter_head_In {A : Type} (p : A -> bool) (l : list A) (x : A)
    (rest : list A) :
  filter p l = x :: rest -> In x l /\ p x = true.
Proof.
  intros H. apply filter_In. rewrite H. left; reflexivity.
Qed.

(** The head of a selection is the first row of the table that
    passes the filter. *)
Lemma filter_head_split {A : Type} (p : A -> bool) (l : list A) (x : A)
    (rest : list A) :
  filter p l = x :: rest ->
  exists pre post,
    l = pre ++ x :: post /\ Forall (fun y => p y = false) pre /\ p x = true.
Proof.
  induction l as [|a l IH]; simpl; [discriminate|].
  destruct (p a) eqn:Ha; intros H.
  - inversion H; subst. exists [], l. auto.
  - destruct (IH H) as [pre [post [E [F Hx]]]].
    exists (a :: pre), post. subst l. auto.
Qed.

(** ** claim-next *)

(** C1: when the selection of [fetchNextNumber] for a truthy operator
    id finds a candidate, that candidate is one with unset status and
    with [assigned_to] null or the operator; the number is returned
    exactly when the assignment write went through, the number returned
    is that candidate, and by then the row of the table carries
    [assigned_to = operatorId]. *)
Theorem claim_next_assigns_before_returning (w : FetchWorld) (u : string)
    (db : Db) (cand : PhoneNumber) (rest : list PhoneNumber) :
  u <> "" ->
  select_fault w = None ->
  filter (next_number_query (Some u)) (phone_numbers db) = cand :: rest ->
  (status cand = None /\
   (assigned_to cand = None \/ assigned_to cand = Some u)) /\
  match assign_fault w with
  | None =>
      exists db',
        fetchNextNumber_try w (Some u) db = (db', inr (Some cand)) /\
        In (set_assigned_to (Some u) cand) (phone_numbers db') /\
        (forall r, In r (phone_numbers db') -> id r = id cand ->
                   assigned_to r = Some u) /\
        (forall st, userId st = Some u ->
           fetchNextNumber w st db = (db', setCurrentNumber (Some cand) st))
  | Some e => fetchNextNumber_try w (Some u) db = (db, inl e)
  end.
Proof.
  intros Hu Hsel Hcand.
  destruct (filter_head_In _ _ _ _ Hcand) as [Hin Hq].
  apply next_number_query_true in Hq. destruct Hq as [Hs Ha].
  split.
  - split; [exact Hs|]. destruct Ha as [Ha|[_ Ha]]; auto.
  - assert (Ht : truthy (Some u) = true) by (apply truthy_Some; exact Hu).
    pose proof (fetchNextNumber_try_eq w (Some u) db) as E.
    rewrite Hsel, Hcand, Ht in E.
    destruct (assign_fault w) as [e|]; [exact E|].
    eexists. split; [exact E|]. simpl. split; [|split].
    + apply update_by_id_In. exists cand. split; [exact Hin|].
      rewrite String.eqb_refl. reflexivity.
    + intros r Hr Hid. apply update_by_id_In in Hr.
      destruct Hr as [x [_ Hx]].
      destruct (String.eqb_spec (id x) (id cand)) as [_|Hne]; subst r.
      * reflexivity.
      * contradiction.
    + intros st Hst. unfold fetchNextNumber. rewrite Hst, E. reflexivity.
Qed.

Lemma claim_next_assigns_before_returning_witness :
  "opA" <> "" /\
  select_fault calm = None /\
  filter (next_number_query (Some "opA")) (phone_numbers pool) = [alice; bob] /\
  exists db',
    fetchNextNumber_try calm (Some "opA") pool = (db', inr (Some alice)) /\
    In (set_assigned_to (Some "opA") alice) (phone_numbers db').
Proof.
  assert (H1 : "opA" <> "") by discriminate.
  assert (H2 : select_fault calm = None) by reflexivity.
  assert (H3 : filter (next_number_query (Some "opA")) (phone_numbers pool)
               = [alice; bob]) by reflexivity.
  split; [exact H1|]. split; [exact H2|]. split; [exact H3|].
  destruct (claim_next_assigns_before_returning calm "opA" pool alice [bob]
              H1 H2 H3) as [_ [db' [E [Hin _]]]].
  exists db'. split; assumption.
Defined.

(** C2: a number that [fetchNextNumber] returns is a row of the table
    whose [status] is null. *)
Theorem claim_next_returns_unset (w : FetchWorld) (u : option string)
    (db db' : Db) (n : PhoneNumber) :
  fetchNextNumber_try w u db = (db', inr (Some n)) ->
  In n (phone_numbers db) /\ status n = None.
Proof.
  intros H. apply fetchNextNumber_try_returns in H. destruct H as [rest H].
  apply filter_head_In in H. destruct H as [Hin Hq].
  apply next_number_query_true in Hq. tauto.
Qed.

Lemma claim_next_returns_unset_witness :
  In dave (phone_numbers pool) /\ status dave = None.
Proof.
  apply (claim_next_returns_unset calm (Some "opB") pool
           {| phone_numbers :=
                [carol; set_assigned_to (Some "opB") dave; alice; bob];
              phone_calls_history := [] |} dave).
  reflexivity.
Defined.

(** C3: a number that [fetchNextNumber] returns has [assigned_to] null
    or equal to the caller's id; it is never assigned to another
    operator. *)
Theorem claim_next_returns_unclaimed_or_mine (w : FetchWorld)
    (u : option string) (db db' : Db) (n : PhoneNumber) :
  fetchNextNumber_try w u db = (db', inr (Some n)) ->
  (assigned_to n = None \/ assigned_to n = u) /\
  (forall other, assigned_to n = Some other -> u = Some other).
Proof.
  intros H. apply fetchNextNumber_try_returns in H. destruct H as [rest H].
  apply filter_head_In in H. destruct H as [_ Hq].
  apply next_number_query_true in Hq. destruct Hq as [_ [Ha|[_ Ha]]].
  - split; [auto|]. intros other Ho. congruence.
  - split; [auto|]. intros other Ho. congruence.
Qed.

Lemma claim_next_returns_unclaimed_or_mine_witness :
  (assigned_to dave = None \/ assigned_to dave = Some "opB") /\
  (forall other, assigned_to dave = Some other -> Some "opB" = Some other).
Proof.
  apply (claim_next_returns_unclaimed_or_mine calm (Some "opB") pool
           {| phone_numbers :=
                [carol; set_assigned_to (Some "opB") dave; alice; bob];
              phone_calls_history := [] |} dave).
  reflexivity.
Defined.

Lemma StronglySorted_middle {A : Type} (R : A -> A -> Prop)
    (pre post : list A) (x : A) :
  StronglySorted R (pre ++ x :: post) -> Forall (R x) post.
Proof.
  induction pre as [|a pre IH]; simpl; intros H.
  - apply StronglySorted_inv in H. tauto.
  - apply StronglySorted_inv in H. tauto.
Qed.

(** C8, as the specification words it: the number returned is the
    eligible one created first.  The query of [fetchNextNumber] asks
    for no ordering, so this fails on a table that the store does not
    hand out in creation order. *)
Lemma claim_next_earliest_created_fails :
  ~ (forall (w : FetchWorld) (u : option string) (db db' : Db)
            (n : PhoneNumber),
       fetchNextNumber_try w u db = (db', inr (Some n)) ->
       forall r, In r (phone_numbers db) ->
                 next_number_query u r = true ->
                 (created_at n <= created_at r)%Z).
Proof.
  intros H.
  specialize (H calm (Some "opA") pool pool_claimed alice eq_refl bob).
  assert (Hin : In bob (phone_numbers pool)) by (simpl; tauto).
  specialize (H Hin eq_refl).
  vm_compute in H. apply H. reflexivity.
Qed.

(** C8, amended: the number returned is the first eligible row in the
    order in which the store hands out the table; it is the eligible
    row created first whenever that order is the order of creation. *)
Theorem claim_next_first_in_store_order (w : FetchWorld) (u : option string)
    (db db' : Db) (n : PhoneNumber) :
  fetchNextNumber_try w u db = (db', inr (Some n)) ->
  (exists pre post,
     phone_numbers db = pre ++ n :: post /\
     Forall (fun r => next_number_query u r = false) pre /\
     next_number_query u n = true) /\
  (StronglySorted (fun a b => (created_at a <= created_at b)%Z)
                  (phone_numbers db) ->
   forall r, In r (phone_numbers db) -> next_number_query u r = true ->
             (created_at n <= created_at r)%Z).
Proof.
  intros H. apply fetchNextNumber_try_returns in H. destruct H as [rest H].
  destruct (filter_head_split _ _ _ _ H) as [pre [post [E [Hpre Hn]]]].
  split; [exists pre, post; auto|].
  intros Hsorted r Hr Hq. rewrite E in Hsorted, Hr.
  apply in_app_or in Hr. destruct Hr as [Hr|[Hr|Hr]].
  - rewrite Forall_forall in Hpre. rewrite (Hpre r Hr) in Hq. discriminate.
  - subst r. lia.
  - apply StronglySorted_middle in Hsorted.
    rewrite Forall_forall in Hsorted. exact (Hsorted r Hr).
Qed.

Lemma claim_next_first_in_store_order_witness :
  (exists pre post,
     phone_numbers pool = pre ++ alice :: post /\
     Forall (fun r => next_number_query (Some "opA") r = false) pre /\
     next_number_query (Some "opA") alice = true).
Proof.
  apply (claim_next_first_in_store_order calm (Some "opA") pool
           pool_claimed alice).
  reflexivity.
Defined.

(** C10: run without an operator id, [fetchNextNumber] selects among
    the rows with null [status] and null [assigned_to] only, returns
    the first of them when the selection answers, and writes nothing:
    the store is as it was. *)
Theorem claim_next_anonymous_reads_only (w : FetchWorld) (db : Db) :
  fst (fetchNextNumber_try w None db) = db /\
  (forall r, next_number_query None r = true <->
             status r = None /\ assigned_to r = None) /\
  (forall n, snd (fetchNextNumber_try w None db) = inr (Some n) ->
             In n (phone_numbers db) /\
             status n = None /\ assigned_to n = None) /\
  (forall cand rest,
     select_fault w = None ->
     filter (fun r => is_null (status r) && is_null (assigned_to r))
            (phone_numbers db) = cand :: rest ->
     fetchNextNumber_try w None db = (db, inr (Some cand)) /\
     forall st, userId st = None ->
       fetchNextNumber w st db = (db, setCurrentNumber (Some cand) st)).
Proof.
  pose proof (fetchNextNumber_try_eq w None db) as E. simpl in E.
  assert (Hq : forall r, next_number_query None r = true <->
                         status r = None /\ assigned_to r = None).
  { intros r. unfold next_number_query. simpl.
    rewrite andb_true_iff, !is_null_true. tauto. }
  split; [|split; [exact Hq|split]].
  - rewrite E. destruct (select_fault w); [reflexivity|].
    destruct (filter _ _); reflexivity.
  - intros n Hn.
    destruct (fetchNextNumber_try w None db) as [db' r] eqn:Hr.
    simpl in Hn. subst r.
    apply fetchNextNumber_try_returns in Hr. destruct Hr as [rest Hr].
    apply filter_head_In in Hr. destruct Hr as [Hin Hr].
    apply Hq in Hr. tauto.
  - intros cand rest Hsel Hf.
    assert (E' : fetchNextNumber_try w None db = (db, inr (Some cand))).
    { rewrite E, Hsel.
      change (filter (next_number_query None) (phone_numbers db))
        with (filter (fun r => is_null (status r) && is_null (assigned_to r))
                     (phone_numbers db)).
      rewrite Hf. reflexivity. }
    split; [exact E'|].
    intros st Hst. unfold fetchNextNumber. rewrite Hst, E'. reflexivity.
Qed.

Lemma claim_next_anonymous_reads_only_witness :
  fst (fetchNextNumber_try calm None pool) = pool /\
  fetchNextNumber_try calm None pool = (pool, inr (Some alice)).
Proof.
  destruct (claim_next_anonymous_reads_only calm pool) as [H1 [_ [_ H4]]].
  split; [exact H1|].
  exact (proj1 (H4 alice [bob] eq_refl eq_refl)).
Defined.

(** ** complete *)

(** The store after the two writes of [updateStatus]. *)
Lemma updateStatus_try_eq (w : UpdateWorld) (cur : PhoneNumber) (u : string)
    (s : option Outcome) (db : Db) :
  updateStatus_try w cur u s db =
  match status_fault w with
  | Some e => (db, inl e)
  | None =>
      let numbers :=
        map (fun r => if String.eqb (id r) (id cur)
                      then set_outcome s (now_status w) r else r)
            (phone_numbers db) in
      match history_fault w with
      | Some e =>
          ({| phone_numbers := numbers;
              phone_calls_history := phone_calls_history db |}, inl e)
      | None =>
          ({| phone_numbers := numbers;
              phone_calls_history :=
                phone_calls_history db ++
                [{| row_id := history_id w; phone_number_id := id cur;
                    operator_id := u; row_status := s;
                    row_called_at := now_history w |}] |}, inr tt)
      end
  end.
Proof.
  unfold updateStatus_try, bind, await, update_phone_numbers,
    insert_phone_calls_history, ret.
  destruct (status_fault w); [reflexivity|]. simpl.
  destruct (history_fault w); reflexivity.
Qed.

(** What a run of [fetchNextNumber] can do to the store: nothing, or
    assign the rows that carry the key of a row with null status. *)
Lemma fetchNextNumber_store (w : FetchWorld) (st : Dashboard) (db : Db) :
  fst (fetchNextNumber w st db) = db \/
  exists sel,
    In sel (phone_numbers db) /\ status sel = None /\
    fst (fetchNextNumber w st db) =
    {| phone_numbers :=
         map (fun r => if String.eqb (id r) (id sel)
                       then set_assigned_to (userId st) r else r)
             (phone_numbers db);
       phone_calls_history := phone_calls_history db |}.
Proof.
  unfold fetchNextNumber. rewrite fetchNextNumber_try_eq.
  destruct (select_fault w); [left; reflexivity|].
  destruct (filter (next_number_query (userId st)) (phone_numbers db))
    as [|sel l] eqn:Hf; [left; reflexivity|].
  destruct (truthy (userId st)); [|left; reflexivity].
  destruct (assign_fault w); [left; reflexivity|].
  right. exists sel. apply filter_head_In in Hf. destruct Hf as [Hin Hq].
  apply next_number_query_true in Hq. simpl. tauto.
Qed.

(** C4: when both writes of [updateStatus] go through, for a current
    number whose key is in the table and a truthy operator id, then
    afterwards (the following [fetchNextNumber] included) the rows
    with that key have [status] the outcome, [assigned_to] null and
    [called_at] set, and the history table is the former one plus one
    row that carries the key, the operator and the outcome. *)
Theorem complete_success (w : UpdateWorld) (outcome : Outcome)
    (st : Dashboard) (db : Db) (cur : PhoneNumber) (u : string) :
  currentNumber st = Some cur ->
  userId st = Some u ->
  u <> "" ->
  (exists r, In r (phone_numbers db) /\ id r = id cur) ->
  status_fault w = None ->
  history_fault w = None ->
  let db' := fst (updateStatus w (Some outcome) st db) in
  (exists r, In r (phone_numbers db') /\ id r = id cur) /\
  (forall r, In r (phone_numbers db') -> id r = id cur ->
     status r = Some outcome /\ assigned_to r = None /\
     called_at r = Some (now_status w)) /\
  (exists h,
     phone_calls_history db' = phone_calls_history db ++ [h] /\
     phone_number_id h = id cur /\ operator_id h = u /\
     row_status h = Some outcome /\ row_called_at h = now_history w) /\
  In success_toast (toasts (snd (updateStatus w (Some outcome) st db))).
Proof.
  intros Hcur Hu Hne [r0 [Hr0 Hid0]] Hs Hh db'.
  assert (Ht : truthy (Some u) = true) by (apply truthy_Some; exact Hne).
  pose proof (updateStatus_try_eq w cur u (Some outcome) db) as E.
  rewrite Hs, Hh in E. cbv zeta in E.
  set (db1 := {| phone_numbers :=
                   map (fun r => if String.eqb (id r) (id cur)
                                 then set_outcome (Some outcome) (now_status w) r
                                 else r) (phone_numbers db);
                 phone_calls_history :=
                   phone_calls_history db ++
                   [{| row_id := history_id w; phone_number_id := id cur;
                       operator_id := u; row_status := Some outcome;
                       row_called_at := now_history w |}] |}) in *.
  assert (Hrun : updateStatus w (Some outcome) st db =
                 fetchNextNumber (next_fetch w) (toast success_toast st) db1).
  { unfold updateStatus. rewrite Hcur, Hu, Ht, E. reflexivity. }
  (* the rows of db1 that carry the key *)
  assert (H1 : forall r, In r (phone_numbers db1) -> id r = id cur ->
                 status r = Some outcome /\ assigned_to r = None /\
                 called_at r = Some (now_status w)).
  { intros r Hr Hid. apply update_by_id_In in Hr. destruct Hr as [x [_ Hx]].
    destruct (String.eqb_spec (id x) (id cur)) as [_|Hn]; subst r.
    - simpl. auto.
    - contradiction. }
  assert (H0 : In (set_outcome (Some outcome) (now_status w) r0)
                  (phone_numbers db1)).
  { apply update_by_id_In. exists r0. split; [exact Hr0|].
    rewrite Hid0, String.eqb_refl. reflexivity. }
  assert (Htoast : In success_toast
                     (toasts (snd (updateStatus w (Some outcome) st db)))).
  { rewrite Hrun. unfold fetchNextNumber.
    destruct (fetchNextNumber_try _ _ _) as [d [e|n]]; simpl.
    - apply in_or_app. left. apply in_or_app. right. left. reflexivity.
    - apply in_or_app. right. left. reflexivity. }
  subst db'. rewrite Hrun.
  destruct (fetchNextNumber_store (next_fetch w) (toast success_toast st) db1)
    as [Hsame|[sel [Hsel [Hnull Hnext]]]].
  - rewrite Hsame. split; [|split; [exact H1|split; [|rewrite <- Hrun; exact Htoast]]].
    + exists (set_outcome (Some outcome) (now_status w) r0). split; [exact H0|exact Hid0].
    + eexists. split; [reflexivity|]. simpl. auto.
  - rewrite Hnext.
    (* the row selected next has null status: its key is another one *)
    assert (Hother : forall x, In x (phone_numbers db1) -> id x = id cur ->
                       String.eqb (id x) (id sel) = false).
    { intros x Hx Hid.
      destruct (String.eqb_spec (id x) (id sel)) as [Heq|]; [|reflexivity].
      assert (Hk : id sel = id cur) by congruence.
      destruct (H1 sel Hsel Hk) as [Hst _]. congruence. }
    split; [|split; [|split; [|rewrite <- Hrun; exact Htoast]]].
    + exists (set_outcome (Some outcome) (now_status w) r0). split; [|exact Hid0].
      cbn [phone_numbers]. apply update_by_id_In.
      exists (set_outcome (Some outcome) (now_status w) r0). split; [exact H0|].
      rewrite (Hother _ H0 Hid0). reflexivity.
    + intros r Hr Hid. cbn [phone_numbers] in Hr.
      apply update_by_id_In in Hr. destruct Hr as [x [Hx Hrx]].
      destruct (String.eqb (id x) (id sel)) eqn:Hxs; subst r.
      * simpl in Hid. rewrite (Hother x Hx Hid) in Hxs. discriminate.
      * exact (H1 x Hx Hid).
    + eexists. split; [reflexivity|]. simpl. auto.
Qed.

Lemma complete_success_witness :
  (exists r, In r (phone_numbers pool_claimed) /\ id r = id alice) /\
  (forall r,
     In r (phone_numbers (fst (updateStatus steady (Some answered) working
                                 pool_claimed))) ->
     id r = id alice ->
     status r = Some answered /\ assigned_to r = None /\
     called_at r = Some 1000%Z) /\
  (exists h,
     phone_calls_history (fst (updateStatus steady (Some answered) working
                                 pool_claimed)) = [] ++ [h] /\
     phone_number_id h = "1" /\ operator_id h = "opA" /\
     row_status h = Some answered /\ row_called_at h = 1001%Z).
Proof.
  assert (Hin : exists r, In r (phone_numbers pool_claimed) /\ id r = id alice).
  { exists (set_assigned_to (Some "opA") alice). split; [|reflexivity].
    simpl. tauto. }
  assert (Hne : "opA" <> "") by discriminate.
  split; [exact Hin|].
  destruct (complete_success steady answered working pool_claimed alice "opA"
              eq_refl eq_refl Hne Hin eq_refl eq_refl) as [_ [H2 [H3 _]]].
  split; [exact H2|exact H3].
Defined.

(** C5: when the update of the number goes through and the insert of
    the history row fails, [updateStatus] reports the failure: the one
    toast it adds has the title [Error], the message of the error as
    its description and the variant [destructive], no success toast is
    added, and the dashboard stays on the number.  The first write
    stays: the rows with the key keep the status, the [called_at] and
    the null [assigned_to] it wrote, and the history table has no new
    row. *)
Theorem complete_history_failure_not_rolled_back (w : UpdateWorld)
    (s : option Outcome) (st : Dashboard) (db : Db) (cur : PhoneNumber)
    (u : string) (e : Error) :
  currentNumber st = Some cur ->
  userId st = Some u ->
  u <> "" ->
  status_fault w = None ->
  history_fault w = Some e ->
  let db' := fst (updateStatus w s st db) in
  snd (updateStatus w s st db) =
    {| currentNumber := Some cur;
       userId := Some u;
       toasts := toasts st ++
                 [{| title := Some "Error"; description := e;
                     variant := Some "destructive" |}] |} /\
  (forall t, In t (toasts (snd (updateStatus w s st db))) ->
     In t (toasts st) \/
     (title t = Some "Error" /\ description t = e /\
      variant t = Some "destructive")) /\
  (forall r, In r (phone_numbers db) -> id r = id cur ->
     In (set_outcome s (now_status w) r) (phone_numbers db')) /\
  (forall r, In r (phone_numbers db') -> id r = id cur ->
     status r = s /\ assigned_to r = None /\
     called_at r = Some (now_status w)) /\
  (forall r, In r (phone_numbers db') -> id r <> id cur ->
     In r (phone_numbers db)) /\
  phone_calls_history db' = phone_calls_history db.
Proof.
  intros Hcur Hu Hne Hs Hh db'.
  assert (Ht : truthy (Some u) = true) by (apply truthy_Some; exact Hne).
  pose proof (updateStatus_try_eq w cur u s db) as E.
  rewrite Hs, Hh in E. cbv zeta in E.
  assert (Hrun : updateStatus w s st db =
                 ({| phone_numbers :=
                       map (fun r => if String.eqb (id r) (id cur)
                                     then set_outcome s (now_status w) r
                                     else r) (phone_numbers db);
                     phone_calls_history := phone_calls_history db |},
                  toast (error_toast e) st)).
  { unfold updateStatus. rewrite Hcur, Hu, Ht, E. reflexivity. }
  subst db'. rewrite Hrun. cbn [fst snd phone_numbers phone_calls_history].
  split; [unfold toast, error_toast; rewrite Hcur, Hu; reflexivity|].
  split; [|split; [|split; [|split; [|reflexivity]]]].
  - intros t Ht'. unfold toast, error_toast in Ht'. cbn [toasts] in Ht'.
    apply in_app_or in Ht'. destruct Ht' as [Ht'|[Ht'|[]]]; [left; exact Ht'|].
    right. subst t. simpl. auto.
  - intros r Hr Hid. apply update_by_id_In. exists r. split; [exact Hr|].
    rewrite Hid, String.eqb_refl. reflexivity.
  - intros r Hr Hid. apply update_by_id_In in Hr. destruct Hr as [x [_ Hx]].
    destruct (String.eqb_spec (id x) (id cur)) as [_|Hn]; subst r.
    + simpl. auto.
    + contradiction.
  - intros r Hr Hid. apply update_by_id_In in Hr. destruct Hr as [x [Hx Hrx]].
    destruct (String.eqb_spec (id x) (id cur)) as [Hk|_]; subst r.
    + simpl in Hid. contradiction.
    + exact Hx.
Qed.

Lemma complete_history_failure_not_rolled_back_witness :
  snd (updateStatus history_down (Some rejected) working pool_claimed) =
    {| currentNumber := Some alice;
       userId := Some "opA";
       toasts := [{| title := Some "Error"; description := "insert failed";
                     variant := Some "destructive" |}] |} /\
  In (set_outcome (Some rejected) 1000%Z (set_assigned_to (Some "opA") alice))
     (phone_numbers (fst (updateStatus history_down (Some rejected) working
                            pool_claimed))) /\
  phone_calls_history (fst (updateStatus history_down (Some rejected) working
                              pool_claimed)) = [].
Proof.
  assert (Hne : "opA" <> "") by discriminate.
  destruct (complete_history_failure_not_rolled_back history_down
              (Some rejected) working pool_claimed alice "opA" "insert failed"
              eq_refl eq_refl Hne eq_refl eq_refl) as [H1 [_ [H2 [_ [_ H5]]]]].
  split; [exact H1|]. split; [|exact H5].
  apply (H2 (set_assigned_to (Some "opA") alice)); [|reflexivity].
  simpl. tauto.
Defined.

(** ** The history listing *)

Lemma insert_called_at_desc_perm (h : HistoryRow) (l : list HistoryRow) :
  Permutation (insert_called_at_desc h l) (h :: l).
Proof.
  induction l as [|x l IH]; simpl.
  - apply Permutation_refl.
  - destruct (row_called_at h <? row_called_at x)%Z.
    + apply Permutation_trans with (x :: h :: l).
      * apply perm_skip. exact IH.
      * apply perm_swap.
    + apply Permutation_refl.
Qed.

Lemma insert_called_at_desc_sorted (h : HistoryRow) (l : list HistoryRow) :
  StronglySorted newer_first l ->
  StronglySorted newer_first (insert_called_at_desc h l).
Proof.
  induction l as [|x l IH]; simpl; intros Hs.
  - constructor; constructor.
  - apply StronglySorted_inv in Hs. destruct Hs as [Hl Hx].
    destruct (Z.ltb_spec (row_called_at h) (row_called_at x)) as [Hlt|Hge].
    + constructor; [apply IH; exact Hl|].
      apply Permutation_Forall with (h :: l).
      * apply Permutation_sym, insert_called_at_desc_perm.
      * constructor; [unfold newer_first; lia|exact Hx].
    + constructor; [constructor; assumption|].
      constructor; [exact Hge|].
      eapply Forall_impl; [|exact Hx].
      unfold newer_first. intros a Ha. lia.
Qed.

Lemma order_called_at_desc_perm (l : list HistoryRow) :
  Permutation (order_called_at_desc l) l.
Proof.
  induction l as [|h l IH]; simpl.
  - constructor.
  - eapply Permutation_trans; [apply insert_called_at_desc_perm|].
    apply perm_skip. exact IH.
Qed.

Lemma order_called_at_desc_sorted (l : list HistoryRow) :
  StronglySorted newer_first (order_called_at_desc l).
Proof.
  induction l as [|h l IH]; simpl.
  - constructor.
  - apply insert_called_at_desc_sorted. exact IH.
Qed.

Lemma format_entry_embed (db : Db) (h : HistoryRow) (e : CallHistoryEntry) :
  format_entry (embed_phone_numbers db h) = inr e <-> entry_of db h e.
Proof.
  unfold format_entry, embed_phone_numbers, entry_of. simpl.
  destruct (find _ (phone_numbers db)) as [r|]; simpl; split.
  - intros H. inversion H. exists r. split; reflexivity.
  - intros [r' [H1 H2]]. inversion H1. subst. reflexivity.
  - discriminate.
  - intros [r' [H1 _]]. discriminate.
Qed.

Lemma map_format_embed (db : Db) (rows : list HistoryRow)
    (l : list CallHistoryEntry) :
  map_format (map (embed_phone_numbers db) rows) = inr l <->
  Forall2 (entry_of db) rows l.
Proof.
  revert l. induction rows as [|h rows IH]; simpl; intros l.
  - split; intros H; inversion H; constructor.
  - destruct (format_entry (embed_phone_numbers db h)) as [err|x] eqn:Hx.
    + split; [discriminate|]. intros H. inversion H; subst.
      apply format_entry_embed in H2. congruence.
    + apply format_entry_embed in Hx.
      destruct (map_format (map (embed_phone_numbers db) rows)) as [err|xs].
      * split; [discriminate|]. intros H. inversion H; subst.
        apply IH in H4. discriminate.
      * split.
        -- intros H. inversion H; subst. constructor; [exact Hx|].
           apply IH. reflexivity.
        -- intros H. inversion H; subst. apply IH in H4. inversion H4; subst.
           destruct Hx as [r [F1 E1]]. destruct H2 as [r' [F2 E2]].
           rewrite F1 in F2. inversion F2; subst. reflexivity.
Qed.

(** [fetchHistory], case by case. *)
Lemma fetchHistory_try_eq (fault : option Error) (u : string) (db : Db) :
  fetchHistory_try fault u db =
  match fault with
  | Some e => (db, inl e)
  | None =>
      (db,
       map_format
         (map (embed_phone_numbers db)
            (order_called_at_desc
               (filter (fun h => String.eqb (operator_id h) u)
                       (phone_calls_history db)))))
  end.
Proof.
  unfold fetchHistory_try, bind, await, select_phone_calls_history, ret, throw.
  destruct fault; [reflexivity|].
  destruct (map_format _); reflexivity.
Qed.

Lemma fetchHistory_try_returns (fault : option Error) (u : string)
    (db db' : Db) (l : list CallHistoryEntry) :
  fetchHistory_try fault u db = (db', inr l) ->
  Forall2 (entry_of db)
    (order_called_at_desc
       (filter (fun h => String.eqb (operator_id h) u)
               (phone_calls_history db))) l.
Proof.
  rewrite fetchHistory_try_eq. destruct fault; [discriminate|].
  intros H. apply map_format_embed. congruence.
Qed.

Lemma Forall2_entry_of_total (db : Db) (rows : list HistoryRow) :
  (forall h, In h rows ->
     exists r, In r (phone_numbers db) /\ id r = phone_number_id h) ->
  exists l, Forall2 (entry_of db) rows l.
Proof.
  induction rows as [|h rows IH]; intros H.
  - exists []. constructor.
  - destruct IH as [l Hl]; [intros x Hx; apply H; right; exact Hx|].
    destruct (H h (or_introl eq_refl)) as [r [Hr Hid]].
    destruct (find (fun r => String.eqb (id r) (phone_number_id h))
                   (phone_numbers db)) as [r'|] eqn:Hf.
    + eexists (_ :: l). constructor; [|exact Hl]. exists r'. split; [exact Hf|reflexivity].
    + exfalso. apply (find_none _ _ Hf) in Hr.
      rewrite Hid, String.eqb_refl in Hr. discriminate.
Qed.

Lemma entry_of_called_at (db : Db) (h : HistoryRow) (e : CallHistoryEntry) :
  entry_of db h e ->
  entry_id e = row_id h /\ entry_status e = row_status h /\
  entry_called_at e = row_called_at h.
Proof. intros [r [_ E]]. subst e. simpl. auto. Qed.

Lemma Forall2_Forall_transfer {A B : Type} (R : A -> B -> Prop)
    (P : A -> Prop) (Q : B -> Prop) (l : list A) (l' : list B) :
  (forall a b, R a b -> P a -> Q b) ->
  Forall2 R l l' -> Forall P l -> Forall Q l'.
Proof.
  intros HPQ H. induction H as [|a b l l' Hab _ IH]; intros HP.
  - constructor.
  - inversion HP; subst. constructor; eauto.
Qed.

Lemma entries_newest_first (db : Db) (rows : list HistoryRow)
    (l : list CallHistoryEntry) :
  Forall2 (entry_of db) rows l ->
  StronglySorted newer_first rows ->
  StronglySorted (fun a b => (entry_called_at b <= entry_called_at a)%Z) l.
Proof.
  intros H. induction H as [|h e rows l He Hl IH]; intros Hs.
  - constructor.
  - apply StronglySorted_inv in Hs. destruct Hs as [Hs Hh].
    constructor; [apply IH; exact Hs|].
    apply (Forall2_Forall_transfer (entry_of db) (newer_first h)
             (fun b => (entry_called_at b <= entry_called_at e)%Z) rows l);
      [|exact Hl|exact Hh].
    intros a b Hab Ha. apply entry_of_called_at in Hab, He.
    unfold newer_first in Ha. lia.
Qed.

(** C7: the entries [fetchHistory] sets are made, one for one, of the
    history rows of the operator, all of them and no other, newest
    first by [called_at]; and it does set them when the query answers
    and every row's reference finds its phone number. *)
Theorem history_list_exact_newest_first (fault : option Error) (u : string)
    (db : Db) :
  (forall db' l,
     fetchHistory_try fault u db = (db', inr l) ->
     exists rows,
       Permutation rows
         (filter (fun h => String.eqb (operator_id h) u)
                 (phone_calls_history db)) /\
       (forall h, In h rows <->
                  In h (phone_calls_history db) /\ operator_id h = u) /\
       Forall2 (entry_of db) rows l /\
       StronglySorted newer_first rows /\
       StronglySorted
         (fun a b => (entry_called_at b <= entry_called_at a)%Z) l /\
       forall st, history (fetchHistory fault u st db) = l) /\
  (fault = None ->
   (forall h, In h (phone_calls_history db) -> operator_id h = u ->
      exists r, In r (phone_numbers db) /\ id r = phone_number_id h) ->
   exists l, fetchHistory_try fault u db = (db, inr l)).
Proof.
  set (rows := order_called_at_desc
                 (filter (fun h => String.eqb (operator_id h) u)
                         (phone_calls_history db))).
  assert (Hperm : Permutation rows
                    (filter (fun h => String.eqb (operator_id h) u)
                            (phone_calls_history db)))
    by apply order_called_at_desc_perm.
  assert (Hin : forall h, In h rows <->
                  In h (phone_calls_history db) /\ operator_id h = u).
  { intros h. split.
    - intros H. apply (Permutation_in _ Hperm) in H.
      apply filter_In in H. destruct H as [H1 H2].
      apply String.eqb_eq in H2. auto.
    - intros [H1 H2]. apply (Permutation_in _ (Permutation_sym Hperm)).
      apply filter_In. split; [exact H1|]. apply String.eqb_eq. exact H2. }
  split.
  - intros db' l H. exists rows.
    pose proof (fetchHistory_try_returns _ _ _ _ _ H) as HF. fold rows in HF.
    pose proof (order_called_at_desc_sorted
                  (filter (fun h => String.eqb (operator_id h) u)
                          (phone_calls_history db))) as Hs. fold rows in Hs.
    split; [exact Hperm|]. split; [exact Hin|]. split; [exact HF|].
    split; [exact Hs|]. split.
    + eapply entries_newest_first; eassumption.
    + intros st. unfold fetchHistory. rewrite H. reflexivity.
  - intros Hfault Href. subst fault.
    destruct (Forall2_entry_of_total db rows) as [l Hl].
    { intros h Hh. apply Hin in Hh. destruct Hh. apply Href; assumption. }
    exists l. rewrite fetchHistory_try_eq. fold rows.
    apply map_format_embed in Hl. rewrite Hl. reflexivity.
Qed.

Lemma history_list_exact_newest_first_witness :
  fetchHistory_try None "opA" call_log = (call_log, inr call_log_of_opA) /\
  exists rows,
    Permutation rows
      (filter (fun h => String.eqb (operator_id h) "opA")
              (phone_calls_history call_log)) /\
    Forall2 (entry_of call_log) rows call_log_of_opA /\
    StronglySorted newer_first rows.
Proof.
  assert (H : fetchHistory_try None "opA" call_log
              = (call_log, inr call_log_of_opA)) by reflexivity.
  split; [exact H|].
  destruct (proj1 (history_list_exact_newest_first None "opA" call_log)
              call_log call_log_of_opA H) as [rows [H1 [_ [H3 [H4 _]]]]].
  exists rows. auto.
Defined.

(** ** What a history entry shows *)

Lemma find_key_map (f : PhoneNumber -> PhoneNumber) (k : string)
    (l : list PhoneNumber) :
  keeps_display_info f ->
  find (fun r => String.eqb (id r) k) (map f l) =
  option_map f (find (fun r => String.eqb (id r) k) l).
Proof.
  intros Hf. induction l as [|r l IH]; simpl; [reflexivity|].
  destruct (Hf r) as [Hid _]. rewrite Hid.
  destruct (String.eqb (id r) k); [reflexivity|exact IH].
Qed.

Lemma fetchNextNumber_numbers (w : FetchWorld) (st : Dashboard) (db : Db) :
  exists f,
    keeps_display_info f /\
    phone_numbers (fst (fetchNextNumber w st db)) = map f (phone_numbers db) /\
    phone_calls_history (fst (fetchNextNumber w st db))
      = phone_calls_history db.
Proof.
  destruct (fetchNextNumber_store w st db) as [H|[sel [_ [_ H]]]]; rewrite H.
  - exists (fun r => r). split; [intros r; auto|].
    rewrite map_id. auto.
  - eexists. split; [|split; reflexivity].
    intros r. simpl. destruct (String.eqb (id r) (id sel)); simpl; auto.
Qed.

(** The run of [updateStatus] when both writes go through. *)
Lemma updateStatus_success (w : UpdateWorld) (s : option Outcome)
    (st : Dashboard) (db : Db) (cur : PhoneNumber) (u : string) :
  currentNumber st = Some cur ->
  userId st = Some u ->
  u <> "" ->
  status_fault w = None ->
  history_fault w = None ->
  updateStatus w s st db =
  fetchNextNumber (next_fetch w) (toast success_toast st)
    {| phone_numbers :=
         map (fun r => if String.eqb (id r) (id cur)
                       then set_outcome s (now_status w) r else r)
             (phone_numbers db);
       phone_calls_history :=
         phone_calls_history db ++
         [{| row_id := history_id w; phone_number_id := id cur;
             operator_id := u; row_status := s;
             row_called_at := now_history w |}] |}.
Proof.
  intros Hcur Hu Hne Hs Hh.
  assert (Ht : truthy (Some u) = true) by (apply truthy_Some; exact Hne).
  pose proof (updateStatus_try_eq w cur u s db) as E.
  rewrite Hs, Hh in E. cbv zeta in E.
  unfold updateStatus. rewrite Hcur, Hu, Ht, E. reflexivity.
Qed.

Lemma Forall2_In_left {A B : Type} (R : A -> B -> Prop) (l : list A)
    (l' : list B) (a : A) :
  Forall2 R l l' -> In a l -> exists b, In b l' /\ R a b.
Proof.
  intros H. induction H as [|x y l l' Hxy _ IH]; simpl; [tauto|].
  intros [Ha|Ha].
  - subst. eauto.
  - destruct (IH Ha) as [b [Hb Hab]]. eauto.
Qed.

Lemma Forall2_In_right {A B : Type} (R : A -> B -> Prop) (l : list A)
    (l' : list B) (b : B) :
  Forall2 R l l' -> In b l' -> exists a, In a l /\ R a b.
Proof.
  intros H. induction H as [|x y l l' Hxy _ IH]; simpl; [tauto|].
  intros [Hb|Hb].
  - subst. eauto.
  - destruct (IH Hb) as [a [Ha Hab]]. eauto.
Qed.

(** The rows behind a listing. *)
Lemma history_list_rows (fault : option Error) (u : string) (db db' : Db)
    (l : list CallHistoryEntry) :
  fetchHistory_try fault u db = (db', inr l) ->
  Forall2 (entry_of db)
    (order_called_at_desc
       (filter (fun h => String.eqb (operator_id h) u)
               (phone_calls_history db))) l /\
  (forall h,
     In h (phone_calls_history db) /\ operator_id h = u <->
     In h (order_called_at_desc
             (filter (fun h => String.eqb (operator_id h) u)
                     (phone_calls_history db)))).
Proof.
  intros H. split; [eapply fetchHistory_try_returns; exact H|].
  intros h.
  pose proof (order_called_at_desc_perm
                (filter (fun h => String.eqb (operator_id h) u)
                        (phone_calls_history db))) as Hperm.
  split.
  - intros [H1 H2]. apply (Permutation_in _ (Permutation_sym Hperm)).
    apply filter_In. split; [exact H1|]. apply String.eqb_eq. exact H2.
  - intros Hh. apply (Permutation_in _ Hperm) in Hh.
    apply filter_In in Hh. destruct Hh as [H1 H2].
    apply String.eqb_eq in H2. auto.
Qed.

(** C6, as the specification words it: whatever is later written to
    the row of the phone number, the listing shows for the entry of a
    completed call the number and the name of completion time.  The
    history row holds the key of the phone number only and the listing
    reads number and name through it, so renaming the row renames the
    entry. *)
Lemma history_entry_snapshot_fails :
  ~ (forall (w : UpdateWorld) (outcome : Outcome) (st : Dashboard) (db : Db)
            (cur : PhoneNumber) (u : string)
            (patch : PhoneNumber -> PhoneNumber),
       currentNumber st = Some cur ->
       userId st = Some u ->
       u <> "" ->
       (exists r, In r (phone_numbers db) /\ id r = id cur) ->
       status_fault w = None ->
       history_fault w = None ->
       let db1 := fst (updateStatus w (Some outcome) st db) in
       let db2 := fst (update_phone_numbers None patch (id cur) db1) in
       forall l1 l2 e1 e2,
         fetchHistory_try None u db1 = (db1, inr l1) ->
         fetchHistory_try None u db2 = (db2, inr l2) ->
         In e1 l1 -> entry_id e1 = history_id w ->
         In e2 l2 -> entry_id e2 = history_id w ->
         entry_phone_number e2 = entry_phone_number e1 /\
         entry_name e2 = entry_name e1).
Proof.
  intros H.
  assert (Hne : "opA" <> "") by discriminate.
  assert (Hin : exists r, In r (phone_numbers pool_claimed) /\ id r = id alice).
  { exists (set_assigned_to (Some "opA") alice). split; [|reflexivity].
    simpl. tauto. }
  specialize (H steady answered working pool_claimed alice "opA"
                (set_name "Alicia") eq_refl eq_refl Hne Hin eq_refl eq_refl).
  cbv zeta in H.
  specialize (H
    [ {| entry_id := "h1"; entry_phone_number := "+15551234";
         entry_name := "Alice"; entry_status := Some answered;
         entry_called_at := 1001%Z |} ]
    [ {| entry_id := "h1"; entry_phone_number := "+15551234";
         entry_name := "Alicia"; entry_status := Some answered;
         entry_called_at := 1001%Z |} ]
    {| entry_id := "h1"; entry_phone_number := "+15551234";
       entry_name := "Alice"; entry_status := Some answered;
       entry_called_at := 1001%Z |}
    {| entry_id := "h1"; entry_phone_number := "+15551234";
       entry_name := "Alicia"; entry_status := Some answered;
       entry_called_at := 1001%Z |}
    eq_refl eq_refl (or_introl eq_refl) eq_refl (or_introl eq_refl) eq_refl).
  destruct H as [_ H]. discriminate H.
Qed.

(** C6, amended: an entry of the listing shows the number and the name
    that the row its history row refers to has in the table when the
    listing is fetched; fetched after a completed call, the listing
    has an entry for the new history row, and it shows the number and
    the name the row of the phone number had at completion. *)
Theorem history_entry_shows_referenced_row :
  (forall (fault : option Error) (u : string) (db db' : Db)
          (l : list CallHistoryEntry) (e : CallHistoryEntry),
     fetchHistory_try fault u db = (db', inr l) ->
     In e l ->
     exists h r,
       In h (phone_calls_history db) /\ operator_id h = u /\
       find (fun r => String.eqb (id r) (phone_number_id h)) (phone_numbers db)
         = Some r /\
       entry_id e = row_id h /\
       entry_phone_number e = phone_number r /\ entry_name e = name r) /\
  (forall (w : UpdateWorld) (outcome : Outcome) (st : Dashboard) (db : Db)
          (cur r0 : PhoneNumber) (u : string) (fault : option Error)
          (db' : Db) (l : list CallHistoryEntry),
     currentNumber st = Some cur ->
     userId st = Some u ->
     u <> "" ->
     find (fun r => String.eqb (id r) (id cur)) (phone_numbers db) = Some r0 ->
     status_fault w = None ->
     history_fault w = None ->
     fetchHistory_try fault u (fst (updateStatus w (Some outcome) st db))
       = (db', inr l) ->
     exists e,
       In e l /\ entry_id e = history_id w /\
       entry_status e = Some outcome /\
       entry_phone_number e = phone_number r0 /\ entry_name e = name r0).
Proof.
  split.
  - intros fault u db db' l e H He.
    pose proof (history_list_rows _ _ _ _ _ H) as [HF Hrows].
    destruct (Forall2_In_right _ _ _ _ HF He) as [h [Hh [r [Hr Ee]]]].
    apply Hrows in Hh. destruct Hh as [Hh Hu].
    exists h, r. subst e. simpl.
    repeat split; first [assumption | reflexivity].
  - intros w outcome st db cur r0 u fault db' l Hcur Hu Hne Hfind Hs Hh H.
    rewrite (updateStatus_success w (Some outcome) st db cur u
               Hcur Hu Hne Hs Hh) in H.
    match type of H with
    | fetchHistory_try _ _ (fst (fetchNextNumber _ _ ?d)) = _ =>
        set (db1 := d) in *
    end.
    destruct (fetchNextNumber_numbers (next_fetch w) (toast success_toast st)
                db1) as [g [Hg [Hnum Hhist]]].
    pose proof (history_list_rows _ _ _ _ _ H) as [HF Hrows].
    set (hnew := {| row_id := history_id w; phone_number_id := id cur;
                    operator_id := u; row_status := Some outcome;
                    row_called_at := now_history w |}).
    assert (Hnew : In hnew (phone_calls_history
                              (fst (fetchNextNumber (next_fetch w)
                                      (toast success_toast st) db1))) /\
                   operator_id hnew = u).
    { split; [|reflexivity]. rewrite Hhist. simpl.
      apply in_or_app. right. left. reflexivity. }
    apply Hrows in Hnew.
    destruct (Forall2_In_left _ _ _ _ HF Hnew) as [e [He [r [Hr Ee]]]].
    exists e. split; [exact He|].
    rewrite Hnum in Hr. simpl in Hr.
    rewrite map_map in Hr. rewrite find_key_map in Hr.
    + rewrite Hfind in Hr. simpl in Hr. inversion Hr; subst r e. simpl.
      destruct (Hg (if String.eqb (id r0) (id cur)
                    then set_outcome (Some outcome) (now_status w) r0
                    else r0)) as [_ [Hp Hn]].
      rewrite Hp, Hn.
      destruct (String.eqb (id r0) (id cur)); simpl; auto.
    + intros x. destruct (Hg (if String.eqb (id x) (id cur)
                              then set_outcome (Some outcome) (now_status w) x
                              else x)) as [Hi [Hp Hn]].
      rewrite Hi, Hp, Hn.
      destruct (String.eqb (id x) (id cur)); simpl; auto.
Qed.

Lemma history_entry_shows_referenced_row_witness :
  exists e,
    In e [ {| entry_id := "h1"; entry_phone_number := "+15551234";
              entry_name := "Alice"; entry_status := Some answered;
              entry_called_at := 1001%Z |} ] /\
    entry_id e = "h1" /\ entry_status e = Some answered /\
    entry_phone_number e = "+15551234" /\ entry_name e = "Alice".
Proof.
  assert (Hne : "opA" <> "") by discriminate.
  exact (proj2 history_entry_shows_referenced_row steady answered working
           pool_claimed alice (set_assigned_to (Some "opA") alice) "opA" None
           _ _ eq_refl eq_refl Hne eq_refl eq_refl eq_refl eq_refl).
Defined.

(** Once the row of a phone number is deleted and a history row of
    the operator still refers to it, the embedding is null: the
    listing throws and the panel keeps the entries it had. *)
Example history_listing_after_delete (st : CallHistory) :
  let db := fst (delete_phone_numbers None "3" call_log) in
  snd (fetchHistory_try None "opA" db) = inl TypeError_null /\
  history (fetchHistory None "opA" st db) = history st.
Proof. split; reflexivity. Qed.

(** ** The search of the history panel *)

Lemma string_length_append (s t : string) :
  String.length (s ++ t)%string = String.length s + String.length t.
Proof. induction s as [|c s IH]; simpl; [reflexivity|]. rewrite IH. reflexivity. Qed.

Lemma string_append_nil_r (s : string) : (s ++ "")%string = s.
Proof. induction s as [|c s IH]; simpl; [reflexivity|]. rewrite IH. reflexivity. Qed.

Lemma prefix_true (q s : string) :
  prefix q s = true <-> exists post, s = (q ++ post)%string.
Proof.
  revert s. induction q as [|a q IH]; intros s.
  - split; [intros _; exists s; reflexivity|].
    intros _. destruct s; reflexivity.
  - destruct s as [|b s]; simpl.
    + split; [discriminate|]. intros [post H]. discriminate H.
    + destruct (ascii_dec a b) as [Hab|Hab].
      * subst b. rewrite IH. split; intros [post H]; exists post.
        -- subst s. reflexivity.
        -- inversion H. reflexivity.
      * split; [discriminate|]. intros [post H]. inversion H. congruence.
Qed.

(** [includes] decides the substring relation. *)
Lemma includes_true (s q : string) : includes s q = true <-> occurs_in q s.
Proof.
  unfold occurs_in. induction s as [|c s IH].
  - cbn [includes]. rewrite orb_false_r, prefix_true. split.
    + intros [post H]. exists "", post. exact H.
    + intros [pre [post H]]. destruct pre; [|discriminate H].
      exists post. exact H.
  - cbn [includes]. rewrite orb_true_iff, prefix_true, IH. split.
    + intros [[post H]|[pre [post H]]].
      * exists "", post. exact H.
      * exists (String c pre), post. simpl. rewrite H. reflexivity.
    + intros [pre [post H]]. destruct pre as [|c' pre].
      * left. exists post. exact H.
      * right. simpl in H. inversion H. exists pre, post. reflexivity.
Qed.

(** A query as long as the string occurs in it only when it is the
    string. *)
Lemma includes_same_length (s q : string) :
  String.length q = String.length s -> includes s q = true -> q = s.
Proof.
  intros Hlen H. apply includes_true in H. destruct H as [pre [post H]].
  assert (L : String.length s
              = String.length pre + (String.length q + String.length post)).
  { rewrite H at 1. rewrite !string_length_append. reflexivity. }
  destruct pre; [|simpl in L; lia].
  destruct post; [|simpl in L; lia].
  simpl in H. rewrite string_append_nil_r in H. congruence.
Qed.

(** C9: an entry passes the search exactly when the lowercased query
    occurs in the lowercased name or the query as typed occurs in the
    phone number; the phone number is compared character for
    character (a query of its length that differs from it in a
    character does not occur in it), and case makes the difference:
    a query may occur in the name up to case and pass, and occur in
    the number up to case and not pass. *)
Theorem search_filter_asymmetric (toLowerCase : string -> string) :
  (forall q e,
     search_match toLowerCase q e = true <->
     occurs_in (toLowerCase q) (toLowerCase (entry_name e)) \/
     occurs_in q (entry_phone_number e)) /\
  (forall st e,
     In e (filteredHistory toLowerCase st) <->
     In e (history st) /\
     (occurs_in (toLowerCase (searchQuery st)) (toLowerCase (entry_name e)) \/
      occurs_in (searchQuery st) (entry_phone_number e))) /\
  (forall q e,
     String.length q = String.length (entry_phone_number e) ->
     q <> entry_phone_number e ->
     includes (entry_phone_number e) q = false) /\
  (search_match ascii_toLowerCase "alice" entry_ALICE = true /\
   includes (ascii_toLowerCase (entry_phone_number entry_vanity))
            (ascii_toLowerCase "call") = true /\
   search_match ascii_toLowerCase "call" entry_vanity = false).
Proof.
  assert (H1 : forall q e,
     search_match toLowerCase q e = true <->
     occurs_in (toLowerCase q) (toLowerCase (entry_name e)) \/
     occurs_in q (entry_phone_number e)).
  { intros q e. unfold search_match.
    rewrite orb_true_iff, !includes_true. reflexivity. }
  split; [exact H1|]. split; [|split].
  - intros st e. unfold filteredHistory. rewrite filter_In, H1. reflexivity.
  - intros q e Hlen Hne.
    destruct (includes (entry_phone_number e) q) eqn:Hi; [|reflexivity].
    exfalso. apply Hne. apply includes_same_length; assumption.
  - repeat split; reflexivity.
Qed.

Lemma search_filter_asymmetric_witness :
  String.length "+15551235" = String.length (entry_phone_number entry_ALICE) /\
  "+15551235" <> entry_phone_number entry_ALICE /\
  includes (entry_phone_number entry_ALICE) "+15551235" = false.
Proof.
  assert (H1 : String.length "+15551235"
               = String.length (entry_phone_number entry_ALICE))
    by reflexivity.
  assert (H2 : "+15551235" <> entry_phone_number entry_ALICE)
    by discriminate.
  split; [exact H1|]. split; [exact H2|].
  exact (proj1 (proj2 (proj2 (search_filter_asymmetric ascii_toLowerCase)))
           "+15551235" entry_ALICE H1 H2).
Defined.

(** * Further properties of the code *)

(** ** claim-next: results, failures and what it leaves alone *)

(** X1: when the selection answers, [fetchNextNumber] yields no
    number exactly when no row of the table has null status and is
    unassigned or assigned to the caller; the dashboard then drops the
    number it showed, and the store is left as it was. *)
Theorem claim_next_none_iff_no_eligible (w : FetchWorld) (st : Dashboard)
    (db : Db) :
  select_fault w = None ->
  (snd (fetchNextNumber_try w (userId st) db) = inr None <->
   forall r, In r (phone_numbers db) ->
     ~ (status r = None /\
        (assigned_to r = None \/
         (truthy (userId st) = true /\ assigned_to r = userId st)))) /\
  (snd (fetchNextNumber_try w (userId st) db) = inr None ->
   fetchNextNumber w st db = (db, setCurrentNumber None st)).
Proof.
  intros Hsel.
  pose proof (fetchNextNumber_try_eq w (userId st) db) as E.
  rewrite Hsel in E.
  destruct (filter (next_number_query (userId st)) (phone_numbers db))
    as [|sel l] eqn:Hf.
  - split.
    + split; [|intros _; rewrite E; reflexivity].
      intros _ r Hr Hq. apply next_number_query_true in Hq.
      assert (Hin : In r (filter (next_number_query (userId st))
                                 (phone_numbers db)))
        by (apply filter_In; auto).
      rewrite Hf in Hin. exact Hin.
    + intros _. unfold fetchNextNumber. rewrite E. reflexivity.
  - assert (Hne : snd (fetchNextNumber_try w (userId st) db) <> inr None).
    { rewrite E. destruct (truthy (userId st)); [|discriminate].
      destruct (assign_fault w); discriminate. }
    split; [|intros H; contradiction].
    split; [intros H; contradiction|].
    intros H. exfalso. apply filter_head_In in Hf. destruct Hf as [Hin Hq].
    apply (H sel Hin). apply next_number_query_true. exact Hq.
Qed.

Lemma claim_next_none_iff_no_eligible_witness :
  select_fault calm = None /\
  snd (fetchNextNumber_try calm (Some "opB") pool_taken) = inr None /\
  fetchNextNumber calm waiting pool_taken
    = (pool_taken, setCurrentNumber None waiting).
Proof.
  assert (H : snd (fetchNextNumber_try calm (userId waiting) pool_taken)
              = inr None) by reflexivity.
  split; [reflexivity|]. split; [exact H|].
  exact (proj2 (claim_next_none_iff_no_eligible calm waiting pool_taken
                  eq_refl) H).
Defined.

(** X2: when a store call of [fetchNextNumber] fails, nothing is half
    done: the store is as it was, the current number stays the one
    shown before, and the error is reported in one toast, with the
    title [Error], the message of the error and the variant
    [destructive].  This is so in particular when a candidate was
    found and only its assignment failed. *)
Theorem claim_next_failure_changes_nothing (w : FetchWorld) (st : Dashboard)
    (db : Db) (e : Error) :
  snd (fetchNextNumber_try w (userId st) db) = inl e ->
  fetchNextNumber w st db = (db, toast (error_toast e) st) /\
  (select_fault w = Some e \/
   (select_fault w = None /\ assign_fault w = Some e /\
    truthy (userId st) = true /\
    exists cand,
      In cand (phone_numbers db) /\
      next_number_query (userId st) cand = true)) /\
  snd (fetchNextNumber w st db) =
    {| currentNumber := currentNumber st;
       userId := userId st;
       toasts := toasts st ++
                 [{| title := Some "Error"; description := e;
                     variant := Some "destructive" |}] |}.
Proof.
  intros H.
  cut (fetchNextNumber w st db = (db, toast (error_toast e) st) /\
       (select_fault w = Some e \/
        (select_fault w = None /\ assign_fault w = Some e /\
         truthy (userId st) = true /\
         exists cand,
           In cand (phone_numbers db) /\
           next_number_query (userId st) cand = true))).
  { intros [H1 H2]. split; [exact H1|]. split; [exact H2|].
    rewrite H1. reflexivity. }
  pose proof (fetchNextNumber_try_eq w (userId st) db) as E.
  unfold fetchNextNumber. rewrite E in *. clear E.
  destruct (select_fault w) as [e0|].
  - simpl in H. inversion H; subst. auto.
  - destruct (filter (next_number_query (userId st)) (phone_numbers db))
      as [|sel l] eqn:Hf; [discriminate H|].
    destruct (truthy (userId st)); [|discriminate H].
    destruct (assign_fault w) as [e1|]; [|discriminate H].
    simpl in H. inversion H; subst. split; [reflexivity|]. right.
    apply filter_head_In in Hf. repeat split; try reflexivity.
    exists sel. exact Hf.
Qed.

Lemma claim_next_failure_changes_nothing_witness :
  snd (fetchNextNumber_try assign_down (userId working) pool) = inl "timeout" /\
  fetchNextNumber assign_down working pool
    = (pool, toast (error_toast "timeout") working).
Proof.
  assert (H : snd (fetchNextNumber_try assign_down (userId working) pool)
              = inl "timeout") by reflexivity.
  split; [exact H|].
  exact (proj1 (claim_next_failure_changes_nothing assign_down working pool
                  "timeout" H)).
Defined.

(** X3: a run of [fetchNextNumber] writes nothing but [assigned_to],
    and there nothing but the caller's id: the history table is
    untouched, and every row of the table is afterwards the row it
    was or that row assigned to the caller. *)
Theorem claim_next_writes_assigned_to_only (w : FetchWorld) (st : Dashboard)
    (db : Db) :
  phone_calls_history (fst (fetchNextNumber w st db))
    = phone_calls_history db /\
  Forall2 (fun r r' => r' = r \/ r' = set_assigned_to (userId st) r)
    (phone_numbers db) (phone_numbers (fst (fetchNextNumber w st db))) /\
  map (set_assigned_to None) (phone_numbers (fst (fetchNextNumber w st db)))
    = map (set_assigned_to None) (phone_numbers db).
Proof.
  destruct (fetchNextNumber_store w st db) as [H|[sel [_ [_ H]]]]; rewrite H;
    clear H.
  - split; [reflexivity|]. split; [|reflexivity].
    induction (phone_numbers db); constructor; auto.
  - cbn [phone_numbers phone_calls_history]. split; [reflexivity|].
    split.
    + induction (phone_numbers db) as [|r l IH]; simpl; [constructor|].
      constructor; [|exact IH].
      destruct (String.eqb (id r) (id sel)); auto.
    + rewrite map_map. apply map_ext. intros r.
      destruct (String.eqb (id r) (id sel)); reflexivity.
Qed.

(** ** claim-next after claim-next *)

(** The store after a claim. *)
Lemma fetchNextNumber_try_claimed (w : FetchWorld) (u : string)
    (db db' : Db) (n : PhoneNumber) :
  u <> "" ->
  fetchNextNumber_try w (Some u) db = (db', inr (Some n)) ->
  db' = {| phone_numbers :=
             map (fun r => if String.eqb (id r) (id n)
                           then set_assigned_to (Some u) r else r)
                 (phone_numbers db);
           phone_calls_history := phone_calls_history db |} /\
  exists rest,
    filter (next_number_query (Some u)) (phone_numbers db) = n :: rest.
Proof.
  intros Hu H. apply truthy_Some in Hu.
  rewrite fetchNextNumber_try_eq, Hu in H.
  destruct (select_fault w); [discriminate|].
  destruct (filter (next_number_query (Some u)) (phone_numbers db))
    as [|sel l]; [discriminate|].
  destruct (assign_fault w); [discriminate|].
  inversion H; subst. eauto.
Qed.

(** X4: once an operator holds a number, [fetchNextNumber] hands no
    row with that key to any other caller, be it another operator or
    a dashboard without operator id. *)
Theorem claim_next_excludes_other_callers (w w' : FetchWorld) (u : string)
    (v : option string) (db db' db'' : Db) (n m : PhoneNumber) :
  u <> "" ->
  v <> Some u ->
  fetchNextNumber_try w (Some u) db = (db', inr (Some n)) ->
  fetchNextNumber_try w' v db' = (db'', inr (Some m)) ->
  id m <> id n.
Proof.
  intros Hu Hv H1 H2 Hid.
  destruct (fetchNextNumber_try_claimed _ _ _ _ _ Hu H1) as [E _].
  apply fetchNextNumber_try_returns in H2. destruct H2 as [rest H2].
  apply filter_head_In in H2. destruct H2 as [Hin Hq].
  apply next_number_query_true in Hq. destruct Hq as [_ Ha].
  subst db'. cbn [phone_numbers] in Hin.
  apply update_by_id_In in Hin. destruct Hin as [x [_ Hx]].
  destruct (String.eqb_spec (id x) (id n)) as [_|Hne]; subst m.
  - simpl in Ha. destruct Ha as [Ha|[_ Ha]]; congruence.
  - contradiction.
Qed.

Lemma claim_next_excludes_other_callers_witness :
  "opA" <> "" /\ Some "opB" <> Some "opA" /\
  fetchNextNumber_try calm (Some "opA") pool = (pool_claimed, inr (Some alice)) /\
  fetchNextNumber_try calm (Some "opB") pool_claimed
    = (pool_claimed, inr (Some dave)) /\
  id dave <> id alice.
Proof.
  assert (H1 : "opA" <> "") by discriminate.
  assert (H2 : Some "opB" <> Some "opA") by discriminate.
  assert (H3 : fetchNextNumber_try calm (Some "opA") pool
               = (pool_claimed, inr (Some alice))) by reflexivity.
  assert (H4 : fetchNextNumber_try calm (Some "opB") pool_claimed
               = (pool_claimed, inr (Some dave))) by reflexivity.
  repeat split; try assumption.
  exact (claim_next_excludes_other_callers calm calm "opA" (Some "opB")
           pool pool_claimed pool_claimed alice dave H1 H2 H3 H4).
Defined.

Lemma set_assigned_to_same (a : option string) (r : PhoneNumber) :
  assigned_to r = a -> set_assigned_to a r = r.
Proof. intros H. destruct r. simpl in *. subst. reflexivity. Qed.

(** X5: a claim survives a refresh, in whatever order the store hands
    the rows out afterwards.  When the operator who holds a number
    runs [fetchNextNumber] again and both store calls answer, a number
    is returned, one with null status that is unassigned or the
    operator's (it may be another one than the number held); the rows
    with the held key stay in the table, assigned to the operator;
    and when the number returned has the held key, the table is left
    as it was. *)
Theorem claim_next_repeat_keeps_hold (w w' : FetchWorld) (u : string)
    (db db' : Db) (n : PhoneNumber) (tbl : list PhoneNumber) :
  u <> "" ->
  fetchNextNumber_try w (Some u) db = (db', inr (Some n)) ->
  Permutation tbl (phone_numbers db') ->
  select_fault w' = None ->
  assign_fault w' = None ->
  exists m db'',
    fetchNextNumber_try w' (Some u)
      {| phone_numbers := tbl;
         phone_calls_history := phone_calls_history db' |}
      = (db'', inr (Some m)) /\
    status m = None /\
    (assigned_to m = None \/ assigned_to m = Some u) /\
    (exists r, In r (phone_numbers db'') /\ id r = id n) /\
    (forall r, In r (phone_numbers db'') -> id r = id n ->
               assigned_to r = Some u) /\
    (id m = id n -> phone_numbers db'' = tbl).
Proof.
  intros Hu H1 Hperm Hs Ha.
  destruct (fetchNextNumber_try_claimed _ _ _ _ _ Hu H1) as [E [rest Hf]].
  pose proof (proj2 (truthy_Some u) Hu) as Ht.
  apply filter_head_In in Hf. destruct Hf as [Hn Hqn].
  apply next_number_query_true in Hqn. destruct Hqn as [Hnull _].
  set (f := fun r => if String.eqb (id r) (id n)
                     then set_assigned_to (Some u) r else r) in *.
  assert (Hnum : phone_numbers db' = map f (phone_numbers db))
    by (rewrite E; reflexivity).
  (* the rows of the table that carry the held key *)
  assert (Hheld : forall x, In x tbl -> id x = id n ->
                            assigned_to x = Some u).
  { intros x Hx Hid. apply (Permutation_in _ Hperm) in Hx.
    rewrite Hnum in Hx. apply in_map_iff in Hx. destruct Hx as [y [Hy _]].
    unfold f in Hy. destruct (String.eqb_spec (id y) (id n)); subst x.
    - reflexivity.
    - contradiction. }
  assert (Hin : In (set_assigned_to (Some u) n) tbl).
  { apply (Permutation_in _ (Permutation_sym Hperm)). rewrite Hnum.
    apply in_map_iff. exists n. split; [|exact Hn].
    unfold f. rewrite String.eqb_refl. reflexivity. }
  assert (Hq : next_number_query (Some u) (set_assigned_to (Some u) n) = true).
  { apply next_number_query_true. simpl. split; [exact Hnull|]. right. auto. }
  destruct (filter (next_number_query (Some u)) tbl) as [|m rest'] eqn:Hm.
  { exfalso.
    assert (Hc : In (set_assigned_to (Some u) n)
                    (filter (next_number_query (Some u)) tbl))
      by (apply filter_In; auto).
    rewrite Hm in Hc. exact Hc. }
  pose proof (filter_head_In _ _ _ _ Hm) as [Hmin Hmq].
  apply next_number_query_true in Hmq. destruct Hmq as [Hmnull Hma].
  set (g := fun r => if String.eqb (id r) (id m)
                     then set_assigned_to (Some u) r else r).
  exists m, {| phone_numbers := map g tbl;
               phone_calls_history := phone_calls_history db' |}.
  split; [|split; [exact Hmnull|split; [|split; [|split]]]].
  - rewrite fetchNextNumber_try_eq, Hs. cbn [phone_numbers phone_calls_history].
    rewrite Hm, Ht, Ha. reflexivity.
  - destruct Hma as [Hma|[_ Hma]]; auto.
  - exists (g (set_assigned_to (Some u) n)). cbn [phone_numbers]. split.
    + apply in_map. exact Hin.
    + unfold g. destruct (String.eqb _ (id m)); reflexivity.
  - intros r Hr Hid. cbn [phone_numbers] in Hr. apply in_map_iff in Hr.
    destruct Hr as [x [Hx Hxin]]. unfold g in Hx.
    destruct (String.eqb (id x) (id m)); subst r.
    + reflexivity.
    + apply Hheld; assumption.
  - intros Hid. cbn [phone_numbers]. rewrite <- (map_id tbl) at 2.
    apply map_ext_in. intros x Hx. unfold g.
    destruct (String.eqb_spec (id x) (id m)) as [Hk|_]; [|reflexivity].
    apply set_assigned_to_same. apply Hheld; [exact Hx|congruence].
Qed.

Lemma claim_next_repeat_keeps_hold_witness :
  Permutation [carol; dave; bob; set_assigned_to (Some "opA") alice]
              (phone_numbers pool_claimed) /\
  exists m db'',
    fetchNextNumber_try calm (Some "opA")
      {| phone_numbers :=
           [carol; dave; bob; set_assigned_to (Some "opA") alice];
         phone_calls_history := [] |}
      = (db'', inr (Some m)) /\
    (forall r, In r (phone_numbers db'') -> id r = id alice ->
               assigned_to r = Some "opA").
Proof.
  assert (H1 : "opA" <> "") by discriminate.
  assert (Hp : Permutation
                 [carol; dave; bob; set_assigned_to (Some "opA") alice]
                 (phone_numbers pool_claimed)).
  { simpl. apply perm_skip. apply perm_skip. apply perm_swap. }
  split; [exact Hp|].
  destruct (claim_next_repeat_keeps_hold calm calm "opA" pool pool_claimed
              alice _ H1 eq_refl Hp eq_refl eq_refl)
    as [m [db'' [E [_ [_ [_ [Hheld _]]]]]]].
  exists m, db''. split; [exact E|exact Hheld].
Defined.

(** ** complete: what it leaves behind *)

Lemma fetchNextNumber_toasts (w : FetchWorld) (st : Dashboard) (db : Db) :
  exists later,
    toasts (snd (fetchNextNumber w st db)) = toasts st ++ later.
Proof.
  unfold fetchNextNumber.
  destruct (fetchNextNumber_try w (userId st) db) as [d [e|n]]; simpl.
  - eexists. reflexivity.
  - exists []. rewrite app_nil_r. reflexivity.
Qed.

Lemma keeps_display_info_compose (f g : PhoneNumber -> PhoneNumber) :
  keeps_display_info f -> keeps_display_info g ->
  keeps_display_info (fun r => g (f r)).
Proof.
  intros Hf Hg r. destruct (Hf r) as [F1 [F2 F3]].
  destruct (Hg (f r)) as [G1 [G2 G3]]. repeat split; congruence.
Qed.

Lemma keeps_display_info_set_outcome (s : option Outcome) (t : Timestamp)
    (k : string) :
  keeps_display_info
    (fun r => if String.eqb (id r) k then set_outcome s t r else r).
Proof. intros r. destruct (String.eqb (id r) k); simpl; auto. Qed.

(** The four ways a run of [updateStatus] can end. *)
Lemma updateStatus_shape (w : UpdateWorld) (s : option Outcome)
    (st : Dashboard) (db : Db) :
  exists f,
    keeps_display_info f /\
    phone_numbers (fst (updateStatus w s st db)) = map f (phone_numbers db) /\
    ((phone_calls_history (fst (updateStatus w s st db))
        = phone_calls_history db /\
      (snd (updateStatus w s st db) = st \/
       exists e, snd (updateStatus w s st db) = toast (error_toast e) st)) \/
     (exists cur u later,
        currentNumber st = Some cur /\ userId st = Some u /\
        phone_calls_history (fst (updateStatus w s st db))
          = phone_calls_history db ++
            [{| row_id := history_id w; phone_number_id := id cur;
                operator_id := u; row_status := s;
                row_called_at := now_history w |}] /\
        toasts (snd (updateStatus w s st db))
          = toasts st ++ success_toast :: later)).
Proof.
  assert (Hid : keeps_display_info (fun r => r)) by (intros r; auto).
  assert (Hstay : forall e0 : option Error,
            exists f,
              keeps_display_info f /\
              phone_numbers db = map f (phone_numbers db) /\
              ((phone_calls_history db = phone_calls_history db /\
                (match e0 with Some e => toast (error_toast e) st | None => st end
                   = st \/
                 exists e,
                   match e0 with Some e => toast (error_toast e) st | None => st end
                   = toast (error_toast e) st)) \/
               (exists cur u later,
                  currentNumber st = Some cur /\ userId st = Some u /\
                  phone_calls_history db
                    = phone_calls_history db ++
                      [{| row_id := history_id w; phone_number_id := id cur;
                          operator_id := u; row_status := s;
                          row_called_at := now_history w |}] /\
                  toasts match e0 with
                         | Some e => toast (error_toast e) st
                         | None => st
                         end
                    = toasts st ++ success_toast :: later))).
  { intros e0. exists (fun r => r). split; [exact Hid|].
    split; [rewrite map_id; reflexivity|]. left. split; [reflexivity|].
    destruct e0 as [e|]; [right; exists e|left]; reflexivity. }
  unfold updateStatus.
  destruct (currentNumber st) as [cur|] eqn:Hcur; [|exact (Hstay None)].
  destruct (userId st) as [u|] eqn:Hu; [|exact (Hstay None)].
  destruct (truthy (Some u)); [|exact (Hstay None)].
  rewrite updateStatus_try_eq.
  destruct (status_fault w) as [e|]; [exact (Hstay (Some e))|].
  cbv zeta. destruct (history_fault w) as [e|].
  { eexists. split; [apply (keeps_display_info_set_outcome s (now_status w)
                              (id cur))|].
    split; [reflexivity|]. left. split; [reflexivity|].
    right. exists e. reflexivity. }
  match goal with
  | |- context [fetchNextNumber ?nf ?s1 ?d1] =>
      destruct (fetchNextNumber_numbers nf s1 d1) as [g [Hg [Hn Hh]]];
      destruct (fetchNextNumber_toasts nf s1 d1) as [later Ht]
  end.
  eexists. split;
    [exact (keeps_display_info_compose _ _
              (keeps_display_info_set_outcome s (now_status w) (id cur)) Hg)|].
  split.
  - rewrite Hn. cbn [phone_numbers]. rewrite map_map. reflexivity.
  - right. exists cur, u, later. rewrite Hh, Ht. simpl.
    rewrite <- app_assoc. auto.
Qed.

(** X6: every run of [updateStatus] leaves in the table the rows that
    were there, with their key, number and name, and treats the
    history table as a log: either the log is as it was, and the
    dashboard is unchanged or has the one error toast more (title
    [Error], variant [destructive]), or exactly one row for the
    current number and the operator was appended, and then the toast
    [Call status updated successfully] was shown. *)
Theorem complete_appends_and_reports_together (w : UpdateWorld)
    (s : option Outcome) (st : Dashboard) (db : Db) :
  Permutation
    (map (fun r => (id r, phone_number r, name r))
         (phone_numbers (fst (updateStatus w s st db))))
    (map (fun r => (id r, phone_number r, name r)) (phone_numbers db)) /\
  ((phone_calls_history (fst (updateStatus w s st db))
      = phone_calls_history db /\
    (snd (updateStatus w s st db) = st \/
     exists e,
       snd (updateStatus w s st db) =
         {| currentNumber := currentNumber st;
            userId := userId st;
            toasts := toasts st ++
                      [{| title := Some "Error"; description := e;
                          variant := Some "destructive" |}] |})) \/
   (exists cur u later,
      currentNumber st = Some cur /\ userId st = Some u /\
      phone_calls_history (fst (updateStatus w s st db))
        = phone_calls_history db ++
          [{| row_id := history_id w; phone_number_id := id cur;
              operator_id := u; row_status := s;
              row_called_at := now_history w |}] /\
      toasts (snd (updateStatus w s st db))
        = toasts st ++
          {| title := None;
             description := "Call status updated successfully";
             variant := None |} :: later)).
Proof.
  destruct (updateStatus_shape w s st db) as [f [Hf [Hn Hh]]].
  split.
  - rewrite Hn, map_map.
    rewrite (map_ext (fun x => (id (f x), phone_number (f x), name (f x)))
                     (fun r => (id r, phone_number r, name r))).
    + apply Permutation_refl.
    + intros r. destruct (Hf r) as [H1 [H2 H3]]. rewrite H1, H2, H3.
      reflexivity.
  - destruct Hh as [[Hh [Hst|[e Hst]]]|Hh].
    + left. split; [exact Hh|]. left. exact Hst.
    + left. split; [exact Hh|]. right. exists e. rewrite Hst. reflexivity.
    + right. exact Hh.
Qed.

(** The rows of the completed number after a successful run. *)
Lemma updateStatus_success_rows (w : UpdateWorld) (outcome : Outcome)
    (st : Dashboard) (db : Db) (cur : PhoneNumber) (u : string) :
  currentNumber st = Some cur ->
  userId st = Some u ->
  u <> "" ->
  status_fault w = None ->
  history_fault w = None ->
  forall r,
    In r (phone_numbers (fst (updateStatus w (Some outcome) st db))) ->
    id r = id cur -> status r = Some outcome.
Proof.
  intros Hcur Hu Hne Hs Hh r Hr Hid.
  rewrite (updateStatus_success w (Some outcome) st db cur u Hcur Hu Hne Hs Hh)
    in Hr.
  match type of Hr with
  | In _ (phone_numbers (fst (fetchNextNumber ?nf ?s1 ?d1))) =>
      set (db1 := d1) in *;
      destruct (fetchNextNumber_store nf s1 db1) as [E|[sel [Hsel [Hnull E]]]];
      rewrite E in Hr
  end.
  - cbn [phone_numbers db1] in Hr. apply update_by_id_In in Hr.
    destruct Hr as [x [_ Hx]].
    destruct (String.eqb_spec (id x) (id cur)); subst r;
      [reflexivity|contradiction].
  - cbn [phone_numbers] in Hr. apply update_by_id_In in Hr.
    destruct Hr as [x [Hx Hrx]].
    assert (Hsx : status r = status x /\ id r = id x).
    { subst r. destruct (String.eqb (id x) (id sel)); simpl; auto. }
    destruct Hsx as [Hst Hk]. rewrite Hst. rewrite Hk in Hid.
    cbn [phone_numbers db1] in Hx. apply update_by_id_In in Hx.
    destruct Hx as [y [_ Hy]].
    destruct (String.eqb_spec (id y) (id cur)); subst x;
      [reflexivity|contradiction].
Qed.

Lemma worked_update_by_id (k i : string) (patch : PhoneNumber -> PhoneNumber)
    (l : list PhoneNumber) :
  (forall r, id (patch r) = id r /\
             (status (patch r) = status r \/ status (patch r) <> None)) ->
  (forall r, In r l -> id r = k -> status r <> None) ->
  forall r,
    In r (map (fun x => if String.eqb (id x) i then patch x else x) l) ->
    id r = k -> status r <> None.
Proof.
  intros Hp Hl r Hr Hid. apply update_by_id_In in Hr.
  destruct Hr as [x [Hx Hrx]].
  destruct (String.eqb (id x) i); subst r; [|exact (Hl x Hx Hid)].
  destruct (Hp x) as [Hk [Hs|Hs]]; [|exact Hs].
  rewrite Hs. apply (Hl x Hx). congruence.
Qed.

Lemma worked_fetchNextNumber (k : string) (w : FetchWorld) (st : Dashboard)
    (db : Db) :
  worked k db -> worked k (fst (fetchNextNumber w st db)).
Proof.
  intros H.
  destruct (fetchNextNumber_store w st db) as [E|[sel [_ [_ E]]]]; rewrite E;
    [exact H|].
  unfold worked. cbn [phone_numbers].
  apply worked_update_by_id; [|exact H]. intros r. simpl. auto.
Qed.

Lemma worked_updateStatus (k : string) (w : UpdateWorld) (outcome : Outcome)
    (st : Dashboard) (db : Db) :
  worked k db -> worked k (fst (updateStatus w (Some outcome) st db)).
Proof.
  intros H. unfold updateStatus.
  destruct (currentNumber st) as [cur|]; [|exact H].
  destruct (userId st) as [u|]; [|exact H].
  destruct (truthy (Some u)); [|exact H].
  rewrite updateStatus_try_eq.
  destruct (status_fault w); [exact H|]. cbv zeta.
  assert (Hset : forall h,
            worked k
              {| phone_numbers :=
                   map (fun r => if String.eqb (id r) (id cur)
                                 then set_outcome (Some outcome) (now_status w) r
                                 else r) (phone_numbers db);
                 phone_calls_history := h |}).
  { intros h. unfold worked. cbn [phone_numbers].
    apply worked_update_by_id; [|exact H].
    intros r. simpl. split; [reflexivity|]. right. discriminate. }
  destruct (history_fault w); [apply Hset|].
  apply worked_fetchNextNumber. apply Hset.
Qed.

(** What the pages do to the store keeps a worked number worked. *)
Lemma worked_store_step (k : string) (db db' : Db) :
  store_step db db' -> worked k db -> worked k db'.
Proof.
  intros Hstep H. destruct Hstep.
  - apply worked_fetchNextNumber. exact H.
  - unfold initializeDashboard. destruct (session w); [|exact H].
    pose proof (worked_fetchNextNumber k (first_fetch w) (view render) db H)
      as Hf.
    destruct (fetchNextNumber (first_fetch w) (view render) db). exact Hf.
  - apply worked_updateStatus. exact H.
  - unfold ListDashboard.updateStatus, await, update_phone_numbers.
    destruct fault; [exact H|]. unfold worked. cbn [fst phone_numbers].
    apply worked_update_by_id; [|exact H].
    intros r. simpl. split; [reflexivity|]. right. discriminate.
  - unfold Admin.deletePhoneNumber, await, delete_phone_numbers.
    destruct fault; [exact H|]. unfold worked. cbn [fst phone_numbers].
    intros r Hr. apply filter_In in Hr. apply H. tauto.
  - unfold worked. cbn [phone_numbers]. intros r Hr.
    apply H. apply (Permutation_in _ H0). exact Hr.
Qed.

Lemma worked_later_store (k : string) (db db' : Db) :
  later_store db db' -> worked k db -> worked k db'.
Proof.
  intros Hl H. induction Hl as [|d d1 d2 Hl IH Hstep]; [exact H|].
  exact (worked_store_step k _ _ Hstep (IH H)).
Qed.

(** X7: a completed number is retired.  After a successful
    [updateStatus] with an outcome, and after whatever the pages do
    next with their buttons (runs of [fetchNextNumber], of
    [initializeDashboard], of [updateStatus] with an outcome on either
    dashboard, of [deletePhoneNumber], by any operator and in any
    world) and however the store reorders the table, no
    [fetchNextNumber], whoever calls it, returns a row with the key of
    the completed number; and when the [fetchNextNumber] that
    [updateStatus] starts goes through, the dashboard no longer shows
    that number. *)
Theorem complete_retires_the_number (w : UpdateWorld) (outcome : Outcome)
    (st : Dashboard) (db : Db) (cur : PhoneNumber) (u : string) :
  currentNumber st = Some cur ->
  userId st = Some u ->
  u <> "" ->
  status_fault w = None ->
  history_fault w = None ->
  (forall db2,
     later_store (fst (updateStatus w (Some outcome) st db)) db2 ->
     forall w' v db3 m,
       fetchNextNumber_try w' v db2 = (db3, inr (Some m)) ->
       id m <> id cur) /\
  (select_fault (next_fetch w) = None ->
   assign_fault (next_fetch w) = None ->
   forall n,
     currentNumber (snd (updateStatus w (Some outcome) st db)) = Some n ->
     id n <> id cur).
Proof.
  intros Hcur Hu Hne Hs Hh.
  pose proof (updateStatus_success_rows w outcome st db cur u
                Hcur Hu Hne Hs Hh) as Hrows.
  split.
  - intros db2 Hlater w' v db3 m Hm Hid.
    assert (Hw : worked (id cur) db2).
    { apply (worked_later_store _ _ _ Hlater).
      intros r Hr Hk. rewrite (Hrows r Hr Hk). discriminate. }
    apply fetchNextNumber_try_returns in Hm. destruct Hm as [rest Hm].
    apply filter_head_In in Hm. destruct Hm as [Hin Hq].
    apply next_number_query_true in Hq. destruct Hq as [Hnull _].
    exact (Hw m Hin Hid Hnull).
  - intros Hsf Haf n Hn Hid.
    rewrite (updateStatus_success w (Some outcome) st db cur u
               Hcur Hu Hne Hs Hh) in Hn.
    unfold fetchNextNumber in Hn.
    match type of Hn with
    | context [fetchNextNumber_try ?nf ?v ?d1] =>
        destruct (fetchNextNumber_try nf v d1) as [d2 [e|[sel|]]] eqn:Hrun
    end; simpl in Hn; try discriminate.
    + rewrite fetchNextNumber_try_eq, Hsf in Hrun.
      destruct (filter _ _) in Hrun; [discriminate|].
      destruct (truthy _) in Hrun; [|discriminate].
      rewrite Haf in Hrun. discriminate.
    + inversion Hn; subst sel.
      apply fetchNextNumber_try_returns in Hrun. destruct Hrun as [rest Hrun].
      apply filter_head_In in Hrun. destruct Hrun as [Hin Hq].
      apply next_number_query_true in Hq. destruct Hq as [Hnull _].
      cbn [phone_numbers] in Hin. apply update_by_id_In in Hin.
      destruct Hin as [x [_ Hx]].
      destruct (String.eqb_spec (id x) (id cur)) as [_|Hk]; subst n.
      * discriminate.
      * contradiction.
Qed.

Lemma complete_retires_the_number_witness :
  later_store (fst (updateStatus steady (Some answered) working pool_claimed))
              (fst (ListDashboard.updateStatus None 900%Z "2"
                      (Some no_answer) list_page
                      (fst (updateStatus steady (Some answered)
                              working pool_claimed)))) /\
  snd (fetchNextNumber_try calm (Some "opB")
         (fst (ListDashboard.updateStatus None 900%Z "2"
                 (Some no_answer) list_page
                 (fst (updateStatus steady (Some answered)
                         working pool_claimed)))))
    = inr (Some dave) /\
  id dave <> id alice /\
  currentNumber (snd (updateStatus steady (Some answered) working pool_claimed))
    = Some bob /\
  id bob <> id alice.
Proof.
  assert (Hne : "opA" <> "") by discriminate.
  assert (Hl : later_store
                 (fst (updateStatus steady (Some answered) working
                         pool_claimed))
                 (fst (ListDashboard.updateStatus None 900%Z "2"
                         (Some no_answer) list_page
                         (fst (updateStatus steady (Some answered)
                                 working pool_claimed))))).
  { eapply later_step; [apply later_now|apply step_list_update]. }
  assert (H : currentNumber
                (snd (updateStatus steady (Some answered) working pool_claimed))
              = Some bob) by reflexivity.
  destruct (complete_retires_the_number steady answered working
              pool_claimed alice "opA" eq_refl eq_refl Hne eq_refl eq_refl)
    as [P1 P2].
  split; [exact Hl|]. split; [reflexivity|]. split; [|split; [exact H|]].
  - apply (P1 _ Hl calm (Some "opB")
             (fst (fetchNextNumber_try calm (Some "opB")
                     (fst (ListDashboard.updateStatus None 900%Z "2"
                             (Some no_answer) list_page
                             (fst (updateStatus steady (Some answered)
                                     working pool_claimed))))))
             dave).
    reflexivity.
  - exact (P2 eq_refl eq_refl bob H).
Defined.

Lemma update_by_id_absent (patch : PhoneNumber -> PhoneNumber) (k : string)
    (l : list PhoneNumber) :
  (forall r, In r l -> id r <> k) ->
  map (fun r => if String.eqb (id r) k then patch r else r) l = l.
Proof.
  intros H. induction l as [|r l IH]; simpl; [reflexivity|].
  rewrite IH by (intros x Hx; apply H; right; exact Hx).
  destruct (String.eqb_spec (id r) k) as [Hk|_]; [|reflexivity].
  exfalso. apply (H r); [left; reflexivity|exact Hk].
Qed.

(** X8: a completion of a number that is gone from the table.  The
    update of [updateStatus] then matches no row and changes nothing;
    when the store refuses the history row (as a store does that
    keeps a foreign key on the reference), the store is exactly as it
    was, the error is reported in the one toast with the title
    [Error] and the store's message, no success is reported, and the
    dashboard stays on the gone number without fetching a next one. *)
Theorem complete_of_missing_number_fails_with_insert (w : UpdateWorld)
    (s : option Outcome) (st : Dashboard) (db : Db) (cur : PhoneNumber)
    (u : string) (e : Error) :
  currentNumber st = Some cur ->
  userId st = Some u ->
  u <> "" ->
  (forall r, In r (phone_numbers db) -> id r <> id cur) ->
  status_fault w = None ->
  history_fault w = Some e ->
  updateStatus w s st db =
    (db,
     {| currentNumber := Some cur;
        userId := Some u;
        toasts := toasts st ++
                  [{| title := Some "Error"; description := e;
                      variant := Some "destructive" |}] |}).
Proof.
  intros Hcur Hu Hne Habs Hs Hh.
  assert (Ht : truthy (Some u) = true) by (apply truthy_Some; exact Hne).
  pose proof (updateStatus_try_eq w cur u s db) as E.
  rewrite Hs, Hh in E. cbv zeta in E.
  rewrite (update_by_id_absent _ _ _ Habs) in E.
  unfold updateStatus. rewrite Hcur, Hu, Ht, E.
  unfold toast, error_toast. rewrite Hcur, Hu. destruct db. reflexivity.
Qed.

Lemma complete_of_missing_number_fails_with_insert_witness :
  (forall r, In r (phone_numbers pool) -> id r <> id ghost) /\
  updateStatus history_down (Some answered) stale pool =
    (pool,
     {| currentNumber := Some ghost;
        userId := Some "opA";
        toasts := [{| title := Some "Error"; description := "insert failed";
                      variant := Some "destructive" |}] |}).
Proof.
  assert (Hne : "opA" <> "") by discriminate.
  assert (Habs : forall r, In r (phone_numbers pool) -> id r <> id ghost).
  { intros r Hr. simpl in Hr.
    destruct Hr as [H|[H|[H|[H|[]]]]]; subst r; discriminate. }
  split; [exact Habs|].
  exact (complete_of_missing_number_fails_with_insert history_down
           (Some answered) stale pool ghost "opA" "insert failed"
           eq_refl eq_refl Hne Habs eq_refl eq_refl).
Defined.

(** ** The history panel: failures and isolation *)

Lemma format_entry_error (entry : PhoneCallHistory) (e : Error) :
  format_entry entry = inl e -> e = TypeError_null.
Proof.
  unfold format_entry. destruct (pch_phone_numbers entry); intros H;
    inversion H; reflexivity.
Qed.

Lemma map_format_dangling (db : Db) (rows : list HistoryRow) (h : HistoryRow) :
  In h rows ->
  find (fun r => String.eqb (id r) (phone_number_id h)) (phone_numbers db)
    = None ->
  map_format (map (embed_phone_numbers db) rows) = inl TypeError_null.
Proof.
  intros Hin Hnone. induction rows as [|x rows IH]; [contradiction|].
  simpl. destruct (format_entry (embed_phone_numbers db x)) as [e|y] eqn:Hx.
  - apply format_entry_error in Hx. subst e. reflexivity.
  - destruct Hin as [Hin|Hin].
    + subst x. unfold format_entry, embed_phone_numbers in Hx. simpl in Hx.
      rewrite Hnone in Hx. discriminate.
    + rewrite (IH Hin). reflexivity.
Qed.

(** X9: one history row of the operator whose reference finds no phone
    number makes the whole listing fail: [fetchHistory] throws on
    that row, returns no partial list, and the panel keeps the
    entries it had, with [loading] off. *)
Theorem history_listing_fails_on_missing_number (u : string) (db : Db)
    (h : HistoryRow) (st : CallHistory) :
  In h (phone_calls_history db) ->
  operator_id h = u ->
  (forall r, In r (phone_numbers db) -> id r <> phone_number_id h) ->
  fetchHistory_try None u db = (db, inl TypeError_null) /\
  history (fetchHistory None u st db) = history st /\
  loading (fetchHistory None u st db) = false.
Proof.
  intros Hin Hu Habs.
  assert (Hnone : find (fun r => String.eqb (id r) (phone_number_id h))
                    (phone_numbers db) = None).
  { destruct (find _ (phone_numbers db)) as [r|] eqn:Hf; [|reflexivity].
    apply find_some in Hf. destruct Hf as [Hr Hk].
    apply String.eqb_eq in Hk. exfalso. exact (Habs r Hr Hk). }
  assert (E : fetchHistory_try None u db = (db, inl TypeError_null)).
  { rewrite fetchHistory_try_eq. f_equal.
    apply (map_format_dangling db _ h); [|exact Hnone].
    apply (Permutation_in _
             (Permutation_sym (order_called_at_desc_perm _))).
    apply filter_In. split; [exact Hin|]. apply String.eqb_eq. exact Hu. }
  split; [exact E|]. unfold fetchHistory. rewrite E. simpl. auto.
Qed.

Lemma history_listing_fails_on_missing_number_witness :
  fetchHistory_try None "opA" broken_log = (broken_log, inl TypeError_null) /\
  history (fetchHistory None "opA" panel broken_log) = call_log_of_opA /\
  loading (fetchHistory None "opA" panel broken_log) = false.
Proof.
  apply (history_listing_fails_on_missing_number "opA" broken_log
           {| row_id := "h4"; phone_number_id := "9"; operator_id := "opA";
              row_status := Some answered; row_called_at := 180%Z |} panel).
  - simpl. tauto.
  - reflexivity.
  - intros r Hr. simpl in Hr.
    destruct Hr as [H|[H|[H|[H|[]]]]]; subst r; discriminate.
Defined.

Lemma embed_phone_numbers_keeps (f : PhoneNumber -> PhoneNumber)
    (db db' : Db) (h : HistoryRow) :
  keeps_display_info f ->
  phone_numbers db' = map f (phone_numbers db) ->
  embed_phone_numbers db' h = embed_phone_numbers db h.
Proof.
  intros Hf Hn. unfold embed_phone_numbers. rewrite Hn, find_key_map by exact Hf.
  destruct (find _ (phone_numbers db)) as [r|]; simpl; [|reflexivity].
  destruct (Hf r) as [_ [Hp Hname]]. rewrite Hp, Hname. reflexivity.
Qed.

Lemma listing_keeps (f : PhoneNumber -> PhoneNumber) (db db' : Db)
    (fault : option Error) (v : string) :
  keeps_display_info f ->
  phone_numbers db' = map f (phone_numbers db) ->
  filter (fun h => String.eqb (operator_id h) v) (phone_calls_history db')
    = filter (fun h => String.eqb (operator_id h) v) (phone_calls_history db) ->
  snd (fetchHistory_try fault v db') = snd (fetchHistory_try fault v db).
Proof.
  intros Hf Hn Hh. rewrite !fetchHistory_try_eq.
  destruct fault; [reflexivity|]. cbn [snd]. rewrite Hh. f_equal.
  apply map_ext. intros h. apply (embed_phone_numbers_keeps f); assumption.
Qed.

(** X10: the work of one operator does not show in the listing of
    another.  Whatever the world does, a run of [updateStatus] on a
    dashboard leaves the result of [fetchHistory] for every other
    operator as it was, and a run of [fetchNextNumber] leaves the
    result for every operator as it was. *)
Theorem history_listing_of_others_unchanged (fault : option Error)
    (v : string) (st : Dashboard) (db : Db) :
  (forall w s,
     userId st <> Some v ->
     snd (fetchHistory_try fault v (fst (updateStatus w s st db)))
       = snd (fetchHistory_try fault v db)) /\
  (forall w,
     snd (fetchHistory_try fault v (fst (fetchNextNumber w st db)))
       = snd (fetchHistory_try fault v db)).
Proof.
  split.
  - intros w s Hv.
    destruct (updateStatus_shape w s st db)
      as [f [Hf [Hn [[Hh _]|[cur [u [later [_ [Hu [Hh _]]]]]]]]]].
    + apply (listing_keeps f); [exact Hf|exact Hn|]. rewrite Hh. reflexivity.
    + apply (listing_keeps f); [exact Hf|exact Hn|].
      rewrite Hh, filter_app. simpl.
      destruct (String.eqb_spec u v) as [Huv|_].
      * exfalso. apply Hv. congruence.
      * apply app_nil_r.
  - intros w.
    destruct (fetchNextNumber_numbers w st db) as [g [Hg [Hn Hh]]].
    apply (listing_keeps g); [exact Hg|exact Hn|]. rewrite Hh. reflexivity.
Qed.

Lemma history_listing_of_others_unchanged_witness :
  snd (fetchHistory_try None "opB"
         (fst (updateStatus steady (Some answered) working call_log)))
    = snd (fetchHistory_try None "opB" call_log).
Proof.
  apply (proj1 (history_listing_of_others_unchanged None "opB" working
                  call_log) steady (Some answered)).
  discriminate.
Defined.

(** ** The first load *)

(** X11: the first load claims nothing.  The effect of a render in
    which [userId] is still null (the first one) runs
    [fetchNextNumber] without operator id: the store is left as it
    was, so the number shown is still unassigned there, whoever logged
    in; the page then holds the id of the session's user and stops
    loading.  Without a session it only navigates to [/auth]. *)
Theorem first_load_claims_nothing (w : LoadWorld) (render : Page) (db : Db) :
  userId (view render) = None ->
  fst (initializeDashboard w render db) = db /\
  (session w = None ->
   view (snd (initializeDashboard w render db)) = view render /\
   route (snd (initializeDashboard w render db)) = Some "/auth") /\
  (forall uid,
     session w = Some uid ->
     userId (view (snd (initializeDashboard w render db))) = Some uid /\
     page_loading (snd (initializeDashboard w render db)) = false /\
     forall cand rest,
       select_fault (first_fetch w) = None ->
       filter (fun r => is_null (status r) && is_null (assigned_to r))
              (phone_numbers db) = cand :: rest ->
       currentNumber (view (snd (initializeDashboard w render db)))
         = Some cand /\
       In cand (phone_numbers (fst (initializeDashboard w render db))) /\
       assigned_to cand = None).
Proof.
  intros Hnull. unfold initializeDashboard.
  destruct (session w) as [uid|].
  - pose proof (fetchNextNumber_try_eq (first_fetch w) None db) as E.
    simpl in E.
    assert (Hrun : fst (fetchNextNumber (first_fetch w) (view render) db) = db).
    { unfold fetchNextNumber. rewrite Hnull, E.
      destruct (select_fault (first_fetch w)); [reflexivity|].
      destruct (filter _ _); reflexivity. }
    destruct (fetchNextNumber (first_fetch w) (view render) db) as [db' v]
      eqn:Hf.
    simpl in Hrun. subst db'. cbn [fst snd view userId page_loading].
    split; [reflexivity|]. split; [discriminate|].
    intros uid' Huid. inversion Huid; subst uid'.
    split; [reflexivity|]. split; [reflexivity|].
    intros cand rest Hsel Hcand.
    unfold fetchNextNumber in Hf. rewrite Hnull, E, Hsel in Hf.
    change (filter (next_number_query None) (phone_numbers db))
      with (filter (fun r => is_null (status r) && is_null (assigned_to r))
                   (phone_numbers db)) in Hf.
    rewrite Hcand in Hf. inversion Hf; subst v. cbn [currentNumber setCurrentNumber].
    apply filter_head_In in Hcand. destruct Hcand as [Hin Hq].
    apply andb_true_iff in Hq. destruct Hq as [_ Hq].
    apply is_null_true in Hq. auto.
  - cbn [fst snd view route]. split; [reflexivity|].
    split; [auto|]. intros uid H. discriminate.
Qed.

Lemma first_load_claims_nothing_witness :
  userId (view first_render) = None /\
  fst (initializeDashboard login_opA first_render pool) = pool /\
  currentNumber (view (snd (initializeDashboard login_opA first_render pool)))
    = Some alice /\
  In alice (phone_numbers (fst (initializeDashboard login_opA first_render
                                  pool))) /\
  assigned_to alice = None.
Proof.
  assert (H0 : userId (view first_render) = None) by reflexivity.
  destruct (first_load_claims_nothing login_opA first_render pool H0)
    as [H1 [_ H3]].
  destruct (H3 "opA" eq_refl) as [_ [_ H4]].
  split; [exact H0|]. split; [exact H1|].
  exact (H4 alice [bob] eq_refl eq_refl).
Defined.

(** ** The search: what it always keeps *)

Lemma includes_empty (s : string) : includes s "" = true.
Proof. destruct s; reflexivity. Qed.

Lemma includes_refl (s : string) : includes s s = true.
Proof.
  apply includes_true. exists "", "". simpl.
  rewrite string_append_nil_r. reflexivity.
Qed.

Lemma filter_all {A : Type} (p : A -> bool) (l : list A) :
  (forall x, In x l -> p x = true) -> filter p l = l.
Proof.
  intros H. induction l as [|a l IH]; simpl; [reflexivity|].
  rewrite (H a (or_introl eq_refl)), IH; [reflexivity|].
  intros x Hx. apply H. right. exact Hx.
Qed.

Lemma StronglySorted_filter {A : Type} (R : A -> A -> Prop) (p : A -> bool)
    (l : list A) :
  StronglySorted R l -> StronglySorted R (filter p l).
Proof.
  intros H. induction H as [|a l Hl IH Ha]; simpl; [constructor|].
  destruct (p a); [|exact IH]. constructor; [exact IH|].
  rewrite Forall_forall in *. intros x Hx. apply filter_In in Hx.
  apply Ha. tauto.
Qed.

(** X12: whatever [toLowerCase] does, the search shows only entries
    of the listing and keeps them newest first; an empty query shows
    the whole listing; and an entry is always found by its exact name
    and by its exact number. *)
Theorem search_keeps_order_and_finds_exact (toLowerCase : string -> string)
    (st : CallHistory) :
  (forall e, In e (filteredHistory toLowerCase st) -> In e (history st)) /\
  (StronglySorted (fun a b => (entry_called_at b <= entry_called_at a)%Z)
     (history st) ->
   StronglySorted (fun a b => (entry_called_at b <= entry_called_at a)%Z)
     (filteredHistory toLowerCase st)) /\
  (searchQuery st = "" -> filteredHistory toLowerCase st = history st) /\
  (forall e, In e (history st) ->
     searchQuery st = entry_name e \/ searchQuery st = entry_phone_number e ->
     In e (filteredHistory toLowerCase st)).
Proof.
  unfold filteredHistory. split; [|split; [|split]].
  - intros e He. apply filter_In in He. tauto.
  - apply StronglySorted_filter.
  - intros Hq. rewrite Hq. apply filter_all. intros e _.
    unfold search_match. rewrite includes_empty. apply orb_true_r.
  - intros e He Hq. apply filter_In. split; [exact He|].
    unfold search_match. destruct Hq as [Hq|Hq]; rewrite Hq.
    + rewrite includes_refl. reflexivity.
    + rewrite includes_refl. apply orb_true_r.
Qed.

Lemma search_keeps_order_and_finds_exact_witness :
  searchQuery panel = "" /\
  filteredHistory ascii_toLowerCase panel = history panel.
Proof.
  split; [reflexivity|].
  exact (proj1 (proj2 (proj2 (search_keeps_order_and_finds_exact
                                ascii_toLowerCase panel))) eq_refl).
Defined.

(** ** The admin page and the list dashboard *)

Lemma insert_created_at_perm (r : PhoneNumber) (l : list PhoneNumber) :
  Permutation (insert_created_at r l) (r :: l).
Proof.
  induction l as [|x l IH]; simpl; [apply Permutation_refl|].
  destruct (created_at r <=? created_at x)%Z; [apply Permutation_refl|].
  apply Permutation_trans with (x :: r :: l);
    [apply perm_skip; exact IH|apply perm_swap].
Qed.

Lemma insert_created_at_sorted (r : PhoneNumber) (l : list PhoneNumber) :
  StronglySorted older_first l ->
  StronglySorted older_first (insert_created_at r l).
Proof.
  induction l as [|x l IH]; simpl; intros Hs.
  - constructor; constructor.
  - apply StronglySorted_inv in Hs. destruct Hs as [Hl Hx].
    destruct (Z.leb_spec (created_at r) (created_at x)) as [Hle|Hgt].
    + constructor; [constructor; assumption|].
      constructor; [exact Hle|].
      eapply Forall_impl; [|exact Hx].
      unfold older_first. intros a Ha. lia.
    + constructor; [apply IH; exact Hl|].
      apply Permutation_Forall with (r :: l).
      * apply Permutation_sym, insert_created_at_perm.
      * constructor; [unfold older_first; lia|exact Hx].
Qed.

Lemma order_created_at_perm (l : list PhoneNumber) :
  Permutation (order_created_at l) l.
Proof.
  induction l as [|r l IH]; simpl; [constructor|].
  eapply Permutation_trans; [apply insert_created_at_perm|].
  apply perm_skip. exact IH.
Qed.

Lemma order_created_at_sorted (l : list PhoneNumber) :
  StronglySorted older_first (order_created_at l).
Proof.
  induction l as [|r l IH]; simpl; [constructor|].
  apply insert_created_at_sorted. exact IH.
Qed.

Lemma Permutation_filter_same {A : Type} (p : A -> bool) (l l' : list A) :
  Permutation l l' -> Permutation (filter p l) (filter p l').
Proof.
  intros H. induction H as [|x l l' _ IH|x y l|l l' l'' _ IH1 _ IH2]; simpl.
  - constructor.
  - destruct (p x); [apply perm_skip|]; exact IH.
  - destruct (p x), (p y); try apply Permutation_refl. apply perm_swap.
  - eapply Permutation_trans; eassumption.
Qed.

(** X13: [fetchPhoneNumbers], on the admin page and on the list
    dashboard alike, shows exactly the rows of the table, oldest
    first, when the query answers; when it fails the list shown stays
    and the error is reported in one toast; loading ends either way. *)
Theorem number_list_is_table_oldest_first (fault : option Error) (db : Db) :
  (forall st,
     Admin.loading (Admin.fetchPhoneNumbers fault st db) = false /\
     match fault with
     | None =>
         Permutation (Admin.phoneNumbers (Admin.fetchPhoneNumbers fault st db))
                     (phone_numbers db) /\
         StronglySorted older_first
           (Admin.phoneNumbers (Admin.fetchPhoneNumbers fault st db)) /\
         Admin.toasts (Admin.fetchPhoneNumbers fault st db) = Admin.toasts st
     | Some e =>
         Admin.phoneNumbers (Admin.fetchPhoneNumbers fault st db)
           = Admin.phoneNumbers st /\
         Admin.toasts (Admin.fetchPhoneNumbers fault st db)
           = Admin.toasts st ++ [error_toast e]
     end) /\
  (forall st,
     ListDashboard.loading (ListDashboard.fetchPhoneNumbers fault st db)
       = false /\
     match fault with
     | None =>
         Permutation
           (ListDashboard.phoneNumbers
              (ListDashboard.fetchPhoneNumbers fault st db))
           (phone_numbers db) /\
         StronglySorted older_first
           (ListDashboard.phoneNumbers
              (ListDashboard.fetchPhoneNumbers fault st db)) /\
         ListDashboard.toasts (ListDashboard.fetchPhoneNumbers fault st db)
           = ListDashboard.toasts st
     | Some e =>
         ListDashboard.phoneNumbers
           (ListDashboard.fetchPhoneNumbers fault st db)
           = ListDashboard.phoneNumbers st /\
         ListDashboard.toasts (ListDashboard.fetchPhoneNumbers fault st db)
           = ListDashboard.toasts st ++ [error_toast e]
     end).
Proof.
  split; intros st;
    unfold Admin.fetchPhoneNumbers, ListDashboard.fetchPhoneNumbers, await,
      select_all_phone_numbers;
    destruct fault as [e|]; simpl; split; try reflexivity;
    try (split; reflexivity);
    (split; [apply order_created_at_perm|]);
    (split; [apply order_created_at_sorted|reflexivity]).
Qed.

(** X14: [deletePhoneNumber].  When the delete answers, the table has
    no row with the key and keeps the other rows; a list that showed
    the table oldest first shows the new table oldest first without a
    new query.  When it fails, store and list stay and the error is
    reported. *)
Theorem admin_delete_keeps_list_in_step (fault : option Error) (i : string)
    (st : Admin.State) (db : Db) :
  match fault with
  | None =>
      (forall r,
         In r (phone_numbers (fst (Admin.deletePhoneNumber fault i st db)))
         <-> In r (phone_numbers db) /\ id r <> i) /\
      (Permutation (Admin.phoneNumbers st) (phone_numbers db) ->
       StronglySorted older_first (Admin.phoneNumbers st) ->
       Permutation
         (Admin.phoneNumbers (snd (Admin.deletePhoneNumber fault i st db)))
         (phone_numbers (fst (Admin.deletePhoneNumber fault i st db))) /\
       StronglySorted older_first
         (Admin.phoneNumbers (snd (Admin.deletePhoneNumber fault i st db))))
  | Some e =>
      Admin.deletePhoneNumber fault i st db
        = (db, Admin.toast (error_toast e) st)
  end.
Proof.
  unfold Admin.deletePhoneNumber, await, delete_phone_numbers.
  destruct fault as [e|]; [reflexivity|]. cbn [fst snd phone_numbers].
  split.
  - intros r. rewrite filter_In, negb_true_iff, String.eqb_neq. reflexivity.
  - intros Hp Hs. cbn [Admin.phoneNumbers]. split.
    + apply Permutation_filter_same. exact Hp.
    + apply StronglySorted_filter. exact Hs.
Qed.

Lemma admin_delete_keeps_list_in_step_witness :
  Permutation (Admin.phoneNumbers admin_page) (phone_numbers pool) /\
  StronglySorted older_first (Admin.phoneNumbers admin_page) /\
  Permutation
    (Admin.phoneNumbers (snd (Admin.deletePhoneNumber None "3" admin_page pool)))
    (phone_numbers (fst (Admin.deletePhoneNumber None "3" admin_page pool))).
Proof.
  assert (Hp : Permutation (Admin.phoneNumbers admin_page) (phone_numbers pool)).
  { change (Permutation (order_created_at (phone_numbers pool))
                        (phone_numbers pool)).
    apply order_created_at_perm. }
  assert (Hs : StronglySorted older_first (Admin.phoneNumbers admin_page)).
  { change (StronglySorted older_first (order_created_at (phone_numbers pool))).
    apply order_created_at_sorted. }
  split; [exact Hp|]. split; [exact Hs|].
  exact (proj1 (proj2 (admin_delete_keeps_list_in_step None "3" admin_page pool)
                  Hp Hs)).
Defined.

Lemma filter_key_fresh (k : string) (l : list PhoneNumber) (row : PhoneNumber) :
  (forall r, In r l -> id r <> k) ->
  id row = k ->
  filter (fun r => negb (String.eqb (id r) k)) (l ++ [row]) = l.
Proof.
  intros Hl Hrow. rewrite filter_app. simpl.
  rewrite Hrow, String.eqb_refl. simpl. rewrite app_nil_r.
  apply filter_all. intros r Hr. apply negb_true_iff, String.eqb_neq.
  apply Hl. exact Hr.
Qed.

(** X15: [addPhoneNumber], whatever [trim] does.  An input that trims
    to nothing is dropped without a store call.  Otherwise, when the
    insert answers, the table gains one row, last, that carries the
    trimmed input, the input field is cleared, and the list queried
    next shows the new table, the new row included; when the insert
    fails, the store stays, the input is kept and the error is
    reported. *)
Theorem admin_add_stores_trimmed_number (trim : string -> string)
    (w : Admin.AddWorld) (st : Admin.State) (db : Db) :
  (trim (Admin.newNumber st) = "" ->
   Admin.addPhoneNumber trim w st db = (db, st)) /\
  (trim (Admin.newNumber st) <> "" ->
   match Admin.insert_fault w with
   | None =>
       phone_numbers (fst (Admin.addPhoneNumber trim w st db))
         = phone_numbers db ++
           [set_phone_number (trim (Admin.newNumber st)) (Admin.stored w)] /\
       Admin.newNumber (snd (Admin.addPhoneNumber trim w st db)) = "" /\
       (Admin.list_fault w = None ->
        Permutation
          (Admin.phoneNumbers (snd (Admin.addPhoneNumber trim w st db)))
          (phone_numbers (fst (Admin.addPhoneNumber trim w st db))) /\
        StronglySorted older_first
          (Admin.phoneNumbers (snd (Admin.addPhoneNumber trim w st db))) /\
        In (set_phone_number (trim (Admin.newNumber st)) (Admin.stored w))
           (Admin.phoneNumbers (snd (Admin.addPhoneNumber trim w st db))))
   | Some e =>
       Admin.addPhoneNumber trim w st db
         = (db, Admin.toast (error_toast e) st)
   end).
Proof.
  unfold Admin.addPhoneNumber, await, insert_phone_numbers. split.
  - intros H. rewrite H. reflexivity.
  - intros H. apply String.eqb_neq in H. rewrite H.
    destruct (Admin.insert_fault w) as [e|]; [reflexivity|].
    cbn [fst snd phone_numbers]. split; [reflexivity|].
    unfold Admin.fetchPhoneNumbers, await, select_all_phone_numbers.
    split; [destruct (Admin.list_fault w); reflexivity|].
    intros Hl. rewrite Hl. cbn [snd Admin.phoneNumbers phone_numbers].
    pose proof (order_created_at_perm
                  (phone_numbers db ++
                   [set_phone_number (trim (Admin.newNumber st))
                      (Admin.stored w)])) as Hp.
    split; [exact Hp|]. split; [apply order_created_at_sorted|].
    apply (Permutation_in _ (Permutation_sym Hp)).
    apply in_or_app. right. left. reflexivity.
Qed.

Lemma admin_add_stores_trimmed_number_witness :
  trim_spaces (Admin.newNumber admin_page) <> "" /\
  phone_numbers (fst (Admin.addPhoneNumber trim_spaces add_calm admin_page pool))
    = phone_numbers pool ++ [set_phone_number "+15557777" fresh_row] /\
  Admin.newNumber (snd (Admin.addPhoneNumber trim_spaces add_calm admin_page
                          pool)) = "".
Proof.
  assert (H : trim_spaces (Admin.newNumber admin_page) <> "") by discriminate.
  split; [exact H|].
  destruct (proj2 (admin_add_stores_trimmed_number trim_spaces add_calm
                     admin_page pool) H) as [H1 [H2 _]].
  split; [exact H1|exact H2].
Defined.

(** X16: add, then remove.  After a number was added, deleting the
    key the store gave it, a key no other row has, brings the table
    back to what it was before the two steps. *)
Theorem admin_add_then_delete_restores_table (trim : string -> string)
    (w : Admin.AddWorld) (st : Admin.State) (db : Db) :
  trim (Admin.newNumber st) <> "" ->
  Admin.insert_fault w = None ->
  (forall r, In r (phone_numbers db) -> id r <> id (Admin.stored w)) ->
  fst (Admin.deletePhoneNumber None (id (Admin.stored w))
         (snd (Admin.addPhoneNumber trim w st db))
         (fst (Admin.addPhoneNumber trim w st db)))
    = db /\
  forall r,
    In r (Admin.phoneNumbers
            (snd (Admin.deletePhoneNumber None (id (Admin.stored w))
                    (snd (Admin.addPhoneNumber trim w st db))
                    (fst (Admin.addPhoneNumber trim w st db))))) ->
    id r <> id (Admin.stored w).
Proof.
  intros Ht Hi Hfresh.
  unfold Admin.deletePhoneNumber, await, delete_phone_numbers.
  cbn [fst snd Admin.phoneNumbers]. split.
  - unfold Admin.addPhoneNumber, await, insert_phone_numbers.
    apply String.eqb_neq in Ht. rewrite Ht, Hi.
    cbn [fst phone_numbers phone_calls_history].
    rewrite filter_key_fresh; [destruct db; reflexivity|exact Hfresh|reflexivity].
  - intros r Hr. apply filter_In in Hr. destruct Hr as [_ Hr].
    apply negb_true_iff, String.eqb_neq in Hr. exact Hr.
Qed.

Lemma admin_add_then_delete_restores_table_witness :
  trim_spaces (Admin.newNumber admin_page) <> "" /\
  (forall r, In r (phone_numbers pool) -> id r <> id (Admin.stored add_calm)) /\
  fst (Admin.deletePhoneNumber None "5"
         (snd (Admin.addPhoneNumber trim_spaces add_calm admin_page pool))
         (fst (Admin.addPhoneNumber trim_spaces add_calm admin_page pool)))
    = pool.
Proof.
  assert (H : trim_spaces (Admin.newNumber admin_page) <> "") by discriminate.
  assert (Hfresh : forall r, In r (phone_numbers pool) ->
                     id r <> id (Admin.stored add_calm)).
  { intros r Hr. simpl in Hr.
    destruct Hr as [E|[E|[E|[E|[]]]]]; subst r; discriminate. }
  split; [exact H|]. split; [exact Hfresh|].
  exact (proj1 (admin_add_then_delete_restores_table trim_spaces add_calm
                  admin_page pool H eq_refl Hfresh)).
Defined.

(** X17: [updateStatus] of the list dashboard.  When the update
    answers, the rows of the table with the key carry the status and
    the time of the call, while no row changes its [assigned_to] and
    no history row is written; the list shown takes the status too,
    so that list and table, if they agreed on the rows, still agree on
    key and status, but the list keeps the [called_at] it had.  When
    the update fails, store and list stay and the error is reported. *)
Theorem list_dashboard_update_keeps_list_in_step (fault : option Error)
    (now : Timestamp) (i : string) (s : option Outcome)
    (st : ListDashboard.State) (db : Db) :
  match fault with
  | None =>
      (forall r,
         In r (phone_numbers (fst (ListDashboard.updateStatus fault now i s
                                     st db))) ->
         id r = i -> status r = s /\ called_at r = Some now) /\
      map assigned_to
          (phone_numbers (fst (ListDashboard.updateStatus fault now i s st db)))
        = map assigned_to (phone_numbers db) /\
      phone_calls_history (fst (ListDashboard.updateStatus fault now i s st db))
        = phone_calls_history db /\
      map called_at
          (ListDashboard.phoneNumbers
             (snd (ListDashboard.updateStatus fault now i s st db)))
        = map called_at (ListDashboard.phoneNumbers st) /\
      (Permutation (ListDashboard.phoneNumbers st) (phone_numbers db) ->
       Permutation
         (map (fun r => (id r, status r))
              (ListDashboard.phoneNumbers
                 (snd (ListDashboard.updateStatus fault now i s st db))))
         (map (fun r => (id r, status r))
              (phone_numbers
                 (fst (ListDashboard.updateStatus fault now i s st db)))))
  | Some e =>
      ListDashboard.updateStatus fault now i s st db
        = (db, ListDashboard.toast (error_toast e) st)
  end.
Proof.
  unfold ListDashboard.updateStatus, await, update_phone_numbers.
  destruct fault as [e|]; [reflexivity|].
  cbn [fst snd phone_numbers phone_calls_history ListDashboard.phoneNumbers].
  split; [|split; [|split; [reflexivity|split]]].
  - intros r Hr Hid. apply update_by_id_In in Hr. destruct Hr as [x [_ Hx]].
    destruct (String.eqb_spec (id x) i) as [_|Hn]; subst r.
    + simpl. auto.
    + contradiction.
  - rewrite map_map. apply map_ext. intros r.
    destruct (String.eqb (id r) i); reflexivity.
  - rewrite map_map. apply map_ext. intros r.
    destruct (String.eqb (id r) i); reflexivity.
  - intros Hp. rewrite !map_map.
    rewrite (map_ext
               (fun x => (id (if String.eqb (id x) i then set_status s x else x),
                          status (if String.eqb (id x) i
                                  then set_status s x else x)))
               (fun x => (id (if String.eqb (id x) i
                              then set_status_called_at s now x else x),
                          status (if String.eqb (id x) i
                                  then set_status_called_at s now x else x)))).
    + apply Permutation_map. exact Hp.
    + intros r. destruct (String.eqb (id r) i); reflexivity.
Qed.

Lemma list_dashboard_update_keeps_list_in_step_witness :
  Permutation (ListDashboard.phoneNumbers list_page) (phone_numbers pool) /\
  Permutation
    (map (fun r => (id r, status r))
         (ListDashboard.phoneNumbers
            (snd (ListDashboard.updateStatus None 900%Z "3" (Some rejected)
                    list_page pool))))
    (map (fun r => (id r, status r))
         (phone_numbers
            (fst (ListDashboard.updateStatus None 900%Z "3" (Some rejected)
                    list_page pool)))).
Proof.
  assert (Hp : Permutation (ListDashboard.phoneNumbers list_page)
                           (phone_numbers pool)).
  { change (Permutation (order_created_at (phone_numbers pool))
                        (phone_numbers pool)).
    apply order_created_at_perm. }
  split; [exact Hp|].
  destruct (list_dashboard_update_keeps_list_in_step None 900%Z "3"
              (Some rejected) list_page pool) as [_ [_ [_ [_ H]]]].
  exact (H Hp).
Defined.
